(** * update_gold_prices.py: the gold price ledger and its publication

    A shallow embedding of [src/update_gold_prices.py].  The script keeps a
    CSV ledger of daily gold prices: [update_csv_file] reads the ledger,
    asks the price provider for the days after the last recorded one, scales
    the prices and appends the rows it regards as new; [push_to_github]
    uploads the ledger through the GitHub contents API; [main] schedules the
    two as one daily job.

    The script is I/O orchestration over pandas, yfinance and requests.  The
    parts of those libraries the script touches are modelled below at the
    level of their documentation:
    - a Timestamp is a calendar day (year, month, day); [strftime] renders
      it with the format '%Y-%m-%d' and [to_datetime] reads that format
      back, any other text being coerced to NaT.  pandas reads more date
      formats than this one, reads numbers as dates, and infers one format
      for a whole column; the rendering of years below 1000 depends on the
      platform.  The model is exact on the ledgers [plain_ledger] admits
      and the days [plain_day] admits, and the statements about an
      arbitrary ledger are restricted to them;
    - a price is a binary64 float, multiplied with the kernel's IEEE 754
      multiplication;
    - a CSV file is a list of complete lines, a line a list of fields; a
      numeric field is kept as the float it renders, so quoting, the
      decimal rendering of floats and a last line without its terminator
      (to which an appended row would be glued) are outside the model;
    - the environment (token, clock, file system, provider, remote
      repository, standard output and sleeps) is an explicit [World]. *)

From Stdlib Require Import Floats.
From Stdlib Require Import String Ascii List Arith ZArith Lia Bool.
From Stdlib Require Import DecimalString QArith.
Import ListNotations.

Set Warnings "-inexact-float".

Local Open Scope string_scope.
Local Open Scope list_scope.
Local Open Scope nat_scope.

(** ** Calendar days *)

Module Calendar.

Local Open Scope Z_scope.

Record Timestamp := mkTs { year : Z; month : Z; day : Z }.

Definition is_leap (y : Z) : bool :=
  ((y mod 4 =? 0) && negb (y mod 100 =? 0)) || (y mod 400 =? 0).

Definition days_in_month (y m : Z) : Z :=
  match m with
  | 2 => if is_leap y then 29 else 28
  | 4 | 6 | 9 | 11 => 30
  | _ => 31
  end.

(** The days of the calendar, years 1 to 9999. *)
Definition valid (t : Timestamp) : bool :=
  (1 <=? year t) && (year t <=? 9999) &&
  (1 <=? month t) && (month t <=? 12) &&
  (1 <=? day t) && (day t <=? days_in_month (year t) (month t)).

(** Chronological order. *)
Definition ts_ltb (a b : Timestamp) : bool :=
  (year a <? year b)
  || ((year a =? year b)
      && ((month a <? month b) || ((month a =? month b) && (day a <? day b)))).

Definition ts_lt (a b : Timestamp) : Prop := ts_ltb a b = true.

Definition ts_max (a b : Timestamp) : Timestamp := if ts_ltb a b then b else a.

(** [t + pd.Timedelta(days=1)]; [None] past the last representable day. *)
Definition add_one_day (t : Timestamp) : option Timestamp :=
  if day t <? days_in_month (year t) (month t)
  then Some (mkTs (year t) (month t) (day t + 1))
  else if month t <? 12
       then Some (mkTs (year t) (month t + 1) 1)
       else if year t <? 9999
            then Some (mkTs (year t + 1) 1 1)
            else None.

(** *** Rendering and reading '%Y-%m-%d' *)

Definition digit (n : Z) : ascii := ascii_of_nat (Z.to_nat (48 + n mod 10)).

Definition digit_value (c : ascii) : option Z :=
  let n := Z.of_nat (nat_of_ascii c) in
  if (48 <=? n) && (n <=? 57) then Some (n - 48) else None.

Definition pad2 (n : Z) (rest : string) : string :=
  String (digit (n / 10)) (String (digit n) rest).

Definition pad4 (n : Z) (rest : string) : string :=
  String (digit (n / 1000)) (String (digit (n / 100)) (pad2 n rest)).

(** [t.strftime('%Y-%m-%d')].  The year is written with four digits; for
    the years 1000 to 9999 that is what every platform does (below 1000
    the C library may leave the year unpadded). *)
Definition strftime (t : Timestamp) : string :=
  pad4 (year t) (String "-" (pad2 (month t) (String "-" (pad2 (day t) "")))).

Definition number2 (a b : ascii) : option Z :=
  match digit_value a, digit_value b with
  | Some x, Some y => Some (10 * x + y)
  | _, _ => None
  end.

Definition number4 (a b c d : ascii) : option Z :=
  match number2 a b, number2 c d with
  | Some x, Some y => Some (100 * x + y)
  | _, _ => None
  end.

(** [pd.to_datetime(s, errors='coerce')] on one text: [None] is NaT.  Only
    the form YYYY-MM-DD, which the script writes, is read; the other forms
    pandas accepts are taken as NaT. *)
Definition to_datetime (s : string) : option Timestamp :=
  match s with
  | String y1 (String y2 (String y3 (String y4 (String "-"
      (String m1 (String m2 (String "-" (String d1 (String d2 "")))))))))
    =>
      match number4 y1 y2 y3 y4, number2 m1 m2, number2 d1 d2 with
      | Some y, Some m, Some d =>
          let t := mkTs y m d in if valid t then Some t else None
      | _, _, _ => None
      end
  | _ => None
  end.

End Calendar.
Export Calendar.


(** ** Tables *)

Module Pandas.

(** A value of a table or a field of a CSV line.  [NaT] is the missing
    datetime; a missing number is the float NaN. *)
Inductive cell :=
| Num (x : float)
| Txt (s : string)
| Stamp (t : Timestamp)
| NaT.

(** The exceptions that occur; all are of class Exception, which
    [except Exception] catches (KeyboardInterrupt and SystemExit are not,
    and are outside the model). *)
Inductive exn :=
| ParserError | EmptyDataError | ValueError | KeyError | TypeError
| AttributeError | NameError | OutOfBoundsDatetime | FileNotFoundError
| ConnectionError.

Definition exn_name (e : exn) : string :=
  match e with
  | ParserError => "ParserError" | EmptyDataError => "EmptyDataError"
  | ValueError => "ValueError" | KeyError => "KeyError"
  | TypeError => "TypeError" | AttributeError => "AttributeError"
  | NameError => "NameError" | OutOfBoundsDatetime => "OutOfBoundsDatetime"
  | FileNotFoundError => "FileNotFoundError"
  | ConnectionError => "ConnectionError"
  end.

(** The outcome of an expression that may raise. *)
Inductive result (A : Type) :=
| Ok (a : A)
| Raise (e : exn).
Arguments Ok {A} a.
Arguments Raise {A} e.

Definition rbind {A B} (r : result A) (k : A -> result B) : result B :=
  match r with Ok a => k a | Raise e => Raise e end.

Notation "'let*' x ':=' r 'in' k" := (rbind r (fun x => k))
  (at level 10, x name, r at level 100, k at level 200).

(** A DataFrame: column labels and rows; a row carries its index label
    (of type [L]) and its cells by column position.  [L] is [cell] for the
    provider's frame, indexed by date, and [unit] for a frame under the
    default RangeIndex. *)
Record Frame (L : Type) := mkFrame {
  index_name : option string;
  columns : list string;
  rows : list (L * list cell)
}.
Arguments mkFrame {L} _ _ _.
Arguments index_name {L} _.
Arguments columns {L} _.
Arguments rows {L} _.

(** A field of a CSV line: text, or a number kept as the float its
    decimal rendering denotes ([FNum nan] is the empty field a missing
    number is written as). *)
Inductive field :=
| FNum (x : float)
| FTxt (s : string).

Definition line := list field.
Definition file := list line.

Fixpoint position (name : string) (cols : list string) : option nat :=
  match cols with
  | [] => None
  | c :: cs => if String.eqb name c then Some 0
               else option_map S (position name cs)
  end.

Definition cell_at (i : nat) (cells : list cell) : cell := nth i cells (Num nan).

Fixpoint update_at (i : nat) (v : cell) (cells : list cell) : list cell :=
  match i, cells with
  | _, [] => []
  | 0, _ :: cs => v :: cs
  | S j, c :: cs => c :: update_at j v cs
  end.

(** [df[name]]: the values of one column. *)
Definition getitem {L} (df : Frame L) (name : string) : result (list cell) :=
  match position name (columns df) with
  | None => Raise KeyError
  | Some i => Ok (map (fun r => cell_at i (snd r)) (rows df))
  end.

Fixpoint positions (names cols : list string) : option (list nat) :=
  match names with
  | [] => Some []
  | n :: ns =>
      match position n cols, positions ns cols with
      | Some i, Some is_ => Some (i :: is_)
      | _, _ => None
      end
  end.

(** [df[[names]]]: the sub-frame of the named columns, in that order. *)
Definition getitem_list {L} (df : Frame L) (names : list string)
  : result (Frame L) :=
  match positions names (columns df) with
  | None => Raise KeyError
  | Some ps =>
      Ok (mkFrame (index_name df) names
            (map (fun r => (fst r, map (fun i => cell_at i (snd r)) ps))
                 (rows df)))
  end.

(** [df[name] = values]: replaces the column when the label exists, else
    adds it as the last column. *)
Definition setitem {L} (df : Frame L) (name : string) (values : list cell)
  : Frame L :=
  match position name (columns df) with
  | Some i =>
      mkFrame (index_name df) (columns df)
        (map (fun rv => (fst (fst rv), update_at i (snd rv) (snd (fst rv))))
             (combine (rows df) values))
  | None =>
      mkFrame (index_name df) (columns df ++ [name])
        (map (fun rv => (fst (fst rv), snd (fst rv) ++ [snd rv]))
             (combine (rows df) values))
  end.

(** [series * k] for a float [k]. *)
Fixpoint series_mul (values : list cell) (k : float) : result (list cell) :=
  match values with
  | [] => Ok []
  | Num x :: vs =>
      let* rest := series_mul vs k in Ok (Num (PrimFloat.mul x k) :: rest)
  | _ :: _ => Raise TypeError
  end.

(** [df.reset_index()]: the index becomes the first column, named after
    the index ("index" when it has no name). *)
Definition reset_index (df : Frame cell) : result (Frame unit) :=
  let name := match index_name df with Some n => n | None => "index" end in
  if existsb (String.eqb name) (columns df) then Raise ValueError
  else Ok (mkFrame None (name :: columns df)
             (map (fun r => (tt, fst r :: snd r)) (rows df))).

(** [series.dt.strftime('%Y-%m-%d')]: the accessor exists only on
    datetime values. *)
Fixpoint dt_strftime (values : list cell) : result (list cell) :=
  match values with
  | [] => Ok []
  | Stamp t :: vs => let* rest := dt_strftime vs in Ok (Txt (strftime t) :: rest)
  | NaT :: vs => let* rest := dt_strftime vs in Ok (NaT :: rest)
  | _ :: _ => Raise AttributeError
  end.

(** [pd.to_datetime(series, errors='coerce')], each value on its own:
    exact for a column of YYYY-MM-DD texts and missing values (pandas
    reads a number as nanoseconds since 1970, and infers one format from
    the first text for the whole column). *)
Definition to_datetime_coerce (values : list cell) : list cell :=
  map (fun c => match c with
                | Txt s => match to_datetime s with
                           | Some t => Stamp t
                           | None => NaT
                           end
                | Stamp t => Stamp t
                | _ => NaT
                end) values.

Definition is_nat (c : cell) : bool :=
  match c with NaT => true | _ => false end.

(** [df.dropna(subset=[name])]. *)
Definition dropna {L} (df : Frame L) (name : string) : result (Frame L) :=
  match position name (columns df) with
  | None => Raise KeyError
  | Some i =>
      Ok (mkFrame (index_name df) (columns df)
            (filter (fun r => negb (is_nat (cell_at i (snd r)))) (rows df)))
  end.

(** [series.max()] of a datetime column: NaT values are skipped, and the
    maximum of nothing is NaT. *)
Fixpoint series_max (values : list cell) : cell :=
  match values with
  | [] => NaT
  | Stamp t :: vs =>
      match series_max vs with
      | Stamp u => Stamp (ts_max t u)
      | _ => Stamp t
      end
  | _ :: vs => series_max vs
  end.

(** [x.strftime('%Y-%m-%d')] on the scalar a datetime column yields. *)
Definition scalar_strftime (c : cell) : result string :=
  match c with
  | Stamp t => Ok (strftime t)
  | NaT => Raise ValueError
  | _ => Raise AttributeError
  end.

(** [pd.to_datetime(s)] on one text, without coercion. *)
Definition scalar_to_datetime (s : string) : result Timestamp :=
  match to_datetime s with Some t => Ok t | None => Raise ValueError end.

(** [t + pd.Timedelta(days=1)]. *)
Definition plus_one_day (t : Timestamp) : result Timestamp :=
  match add_one_day t with Some u => Ok u | None => Raise OutOfBoundsDatetime end.

Definition cell_eqb (a b : cell) : bool :=
  match a, b with
  | Txt s, Txt u => String.eqb s u
  | _, _ => false
  end.

(** [series.isin(values)]. *)
Definition isin (series values : list cell) : list bool :=
  map (fun c => existsb (cell_eqb c) values) series.

(** [df[mask]] for a boolean mask. *)
Definition mask_rows {L} (df : Frame L) (mask : list bool) : Frame L :=
  mkFrame (index_name df) (columns df)
    (map fst (filter snd (combine (rows df) mask))).

(** [df.empty]: some axis has length 0. *)
Definition empty {L} (df : Frame L) : bool :=
  match rows df, columns df with
  | _ :: _, _ :: _ => false
  | _, _ => true
  end.

(** [df.columns = names]. *)
Definition set_columns {L} (df : Frame L) (names : list string)
  : result (Frame L) :=
  if length names =? length (columns df)
  then Ok (mkFrame (index_name df) names (rows df))
  else Raise ValueError.

Definition field_text (c : field) : string :=
  match c with FTxt s => s | FNum _ => "" end.

(** The value a field is read as. *)
Definition parse_field (c : field) : cell :=
  match c with FNum x => Num x | FTxt s => Txt s end.

(** The field a value is written as. *)
Definition render (c : cell) : field :=
  match c with
  | Num x => FNum x
  | Txt s => FTxt s
  | Stamp t => FTxt (strftime t)
  | NaT => FTxt ""
  end.

Fixpoint pad (n : nat) (l : line) : line :=
  match n, l with
  | 0, _ => l
  | S m, [] => FNum nan :: pad m []
  | S m, c :: cs => c :: pad m cs
  end.

Definition blank (l : line) : bool :=
  match l with [] => true | _ => false end.

(** [pd.read_csv(path, on_bad_lines='skip')] on the lines of the file: the
    first line that is not blank is the header; a later line with more
    fields than the header is a bad line and is skipped; a line with fewer
    fields is completed with NaN.  (The index pandas infers when the very
    first data line is longer than the header is not modelled: the
    statements about what is read from an arbitrary ledger assume that the
    first data line fits the header.) *)
Definition read_csv (f : file) : result (Frame unit) :=
  match filter (fun l => negb (blank l)) f with
  | [] => Raise EmptyDataError
  | header :: body =>
      let n := length header in
      Ok (mkFrame None (map field_text header)
            (map (fun l => (tt, map parse_field (pad n l)))
                 (filter (fun l => length l <=? n) body)))
  end.

(** The lines [df.to_csv(..., index=False)] writes. *)
Definition to_csv {L} (df : Frame L) (header : bool) : list line :=
  (if header then [map FTxt (columns df)] else [])
  ++ map (fun r => map render (snd r)) (rows df).

End Pandas.
Export Pandas.

(** ** The environment of a run *)

Module Env.

(** What [yf.Ticker(ticker).history(start=, end=)] does: it raises, or it
    returns a frame indexed by date. *)
Inductive provider_answer :=
| Fails
| Returns (df : Frame cell).

(** The file of the remote repository: its content and its version token
    (the blob sha), when the path exists. *)
Definition remote_file := option (file * nat).

Record response := mkResponse {
  status_code : nat;
  sha_field : option nat      (* the 'sha' key of the JSON body, if any *)
}.

Record payload := mkPayload {
  message : string;
  content : file;             (* the base64 text, kept as the bytes it encodes *)
  sha : option nat
}.

(** What a run does to the outside, besides the files it leaves. *)
Inductive event :=
| Print (text : string)
| Sleep (seconds : nat)
| History (ticker start_date end_date : string)
| HttpGet
| HttpPut (body : payload).

Record World := mkWorld {
  GITHUB_TOKEN : option string;   (* os.getenv('PERSONAL_ACCESS_TOKEN') *)
  today : Timestamp;              (* the day datetime.today() falls on *)
  disk : option file;             (* the file at CSV_FILE_PATH, if it exists *)
  yahoo : nat -> string -> string -> string -> provider_answer;
                                  (* the answer to the n-th history call *)
  online : bool;                  (* whether api.github.com can be reached *)
  github : remote_file;
  journal : list event            (* the events so far, latest first *)
}.

Definition set_disk (d : option file) (w : World) : World :=
  mkWorld (GITHUB_TOKEN w) (today w) d (yahoo w) (online w) (github w)
          (journal w).

Definition set_github (g : remote_file) (w : World) : World :=
  mkWorld (GITHUB_TOKEN w) (today w) (disk w) (yahoo w) (online w) g
          (journal w).

Definition emit (e : event) (w : World) : World :=
  mkWorld (GITHUB_TOKEN w) (today w) (disk w) (yahoo w) (online w) (github w)
          (e :: journal w).

Definition is_history (e : event) : bool :=
  match e with History _ _ _ => true | _ => false end.

(** The history calls of a journal, latest first. *)
Definition history_calls (j : list event) : list event := filter is_history j.

(** The contents API of the remote repository, as its documentation has
    it: GET of a path answers 200 with the blob sha when the file exists
    and 404 when it does not; PUT creates the file (201) when it does not
    exist, replaces it (200) when the sha sent is the current one, and
    answers 409 otherwise. *)
Definition api_get (g : remote_file) : response :=
  match g with
  | Some (_, s) => mkResponse 200 (Some s)
  | None => mkResponse 404 None
  end.

Definition api_put (g : remote_file) (body : payload) : response * remote_file :=
  match g, sha body with
  | None, _ => (mkResponse 201 (Some 0), Some (content body, 0))
  | Some (_, s), Some s' =>
      if s =? s' then (mkResponse 200 (Some (S s)), Some (content body, S s))
      else (mkResponse 409 None, g)
  | Some _, None => (mkResponse 409 None, g)
  end.

(** *** Computations: a world in, an outcome and a world out.  What was
    done before an exception was raised stays done. *)
Definition M (A : Type) : Type := World -> result A * World.

Definition ret {A} (a : A) : M A := fun w => (Ok a, w).

Definition raise {A} (e : exn) : M A := fun w => (Raise e, w).

Definition bind {A B} (m : M A) (k : A -> M B) : M B :=
  fun w => match m w with
           | (Ok a, w') => k a w'
           | (Raise e, w') => (Raise e, w')
           end.

Definition lift {A} (r : result A) : M A := fun w => (r, w).

(** [try: body  except <caught>: handler]; an exception the clause does
    not name ([None]) goes on to the caller. *)
Definition try_except {A} (body : M A) (handler : exn -> option (M A)) : M A :=
  fun w => match body w with
           | (Ok a, w') => (Ok a, w')
           | (Raise e, w') =>
               match handler e with
               | Some h => h w'
               | None => (Raise e, w')
               end
           end.

Notation "x <- m ;; k" := (bind m (fun x => k))
  (at level 61, m at next level, right associativity).
Notation "m ;;; k" := (bind m (fun _ => k))
  (at level 61, right associativity).

Definition print (text : string) : M unit := fun w => (Ok tt, emit (Print text) w).

Definition sleep (seconds : nat) : M unit := fun w => (Ok tt, emit (Sleep seconds) w).

Definition getenv : M (option string) := fun w => (Ok (GITHUB_TOKEN w), w).

Definition datetime_today : M Timestamp := fun w => (Ok (today w), w).

Definition path_exists : M bool :=
  fun w => (Ok (match disk w with Some _ => true | None => false end), w).

Definition read_file : M file :=
  fun w => match disk w with
           | Some f => (Ok f, w)
           | None => (Raise FileNotFoundError, w)
           end.

(** [df.to_csv(CSV_FILE_PATH, index=False)]: mode 'w', with the header. *)
Definition to_csv_write {L} (df : Frame L) : M unit :=
  fun w => (Ok tt, set_disk (Some (to_csv df true)) w).

(** [df.to_csv(CSV_FILE_PATH, mode='a', header=False, index=False)]: the
    lines are added after the last line of the file, which is complete. *)
Definition to_csv_append {L} (df : Frame L) : M unit :=
  fun w => (Ok tt,
            set_disk (Some (match disk w with
                            | Some f => f ++ to_csv df false
                            | None => to_csv df false
                            end)) w).

(** [yf.Ticker(ticker).history(start=start_date, end=end_date)]. *)
Definition history (ticker start_date end_date : string) : M (Frame cell) :=
  fun w =>
    let n := length (history_calls (journal w)) in
    let w' := emit (History ticker start_date end_date) w in
    match yahoo w n ticker start_date end_date with
    | Returns df => (Ok df, w')
    | Fails => (Raise ConnectionError, w')
    end.

Definition requests_get : M response :=
  fun w => if online w then (Ok (api_get (github w)), emit HttpGet w)
           else (Raise ConnectionError, emit HttpGet w).

Definition requests_put (body : payload) : M response :=
  fun w => if online w
           then let (r, g) := api_put (github w) body in
                (Ok r, set_github g (emit (HttpPut body) w))
           else (Raise ConnectionError, emit (HttpPut body) w).

End Env.
Export Env.

(** ** The script *)

Module Script.

Local Open Scope string_scope.

Definition GITHUB_REPO : string := "Parthrk75/gold-price-data".
Definition CSV_FILE_PATH : string := "historical_gold_spot_prices.csv".

Definition str (n : nat) : string := NilEmpty.string_of_uint (Nat.to_uint n).

(** [not GITHUB_TOKEN]: the variable is unset or empty. *)
Definition token_missing (token : option string) : bool :=
  match token with
  | None => true
  | Some s => String.eqb s ""
  end.

(** The persisted schema (lines 48-49). *)
Definition schema : list string :=
  ["Date"; "Open (Spot Price USD)"; "High (Spot Price USD)";
   "Low (Spot Price USD)"; "Close (Spot Price USD)"].

Definition scaling_factor : float := 10.77%float.

(** *** retry (lines 16-24) *)

(** The body of [for i in range(retries)] with [remaining] rounds to go:
    round [i] is [retries - remaining]. *)
Fixpoint retry_loop {A} (func : M A) (retries delay remaining : nat)
  : M (option A) :=
  match remaining with
  | 0 => print "Max retries reached. Exiting." ;;; ret None
  | S k =>
      try_except (a <- func ;; ret (Some a))
        (fun e =>
           Some (print ("Retry " ++ str (retries - k) ++ "/" ++ str retries
                        ++ " failed: " ++ exn_name e) ;;;
                 sleep delay ;;;
                 retry_loop func retries delay k))
  end.

(** [retry(func, retries=3, delay=5)]; [None] is the [None] returned when
    every attempt raised.  The bound and the delay are natural numbers: a
    negative delay, at which [time.sleep] itself raises inside the handler,
    is outside the model. *)
Definition retry {A} (func : M A) (retries delay : nat) : M (option A) :=
  retry_loop func retries delay retries.

(** *** fetch_data_from_yfinance (lines 27-33) *)

Definition fetch_data_from_yfinance (ticker start_date end_date : string)
  : M (option (Frame cell)) :=
  try_except
    (df <- history ticker start_date end_date ;; ret (Some df))
    (fun e =>
       Some (print ("Error fetching data from Yahoo Finance: " ++ exn_name e) ;;;
             ret None)).

(** *** update_csv_file (lines 36-96) *)

(** Lines 47-54: the ledger as read, and its last date as text. *)
Definition load_existing (f : file) : result (Frame unit * string) :=
  let* existing_data := read_csv f in
  let* existing_data := set_columns existing_data schema in
  let* dates := getitem existing_data "Date" in
  let existing_data := setitem existing_data "Date" (to_datetime_coerce dates) in
  let* existing_data := dropna existing_data "Date" in
  let* dates := getitem existing_data "Date" in
  let* last_date := scalar_strftime (series_max dates) in
  Ok (existing_data, last_date).

(** Line 58: [(pd.to_datetime(last_date) + pd.Timedelta(days=1)).strftime(...)]. *)
Definition next_start (last_date : string) : result string :=
  let* t := scalar_to_datetime last_date in
  let* u := plus_one_day t in
  Ok (strftime u).

(** Lines 72-79: scaled columns are added beside the provider's four, the
    date index becomes a column and is rendered as text. *)
Definition scale_and_relabel (historical_data : Frame cell)
  : result (Frame unit) :=
  let* selected_data := getitem_list historical_data ["Open"; "High"; "Low"; "Close"] in
  let* o := getitem selected_data "Open" in
  let* o := series_mul o scaling_factor in
  let selected_data := setitem selected_data "Open (Spot Price USD)" o in
  let* h := getitem selected_data "High" in
  let* h := series_mul h scaling_factor in
  let selected_data := setitem selected_data "High (Spot Price USD)" h in
  let* l := getitem selected_data "Low" in
  let* l := series_mul l scaling_factor in
  let selected_data := setitem selected_data "Low (Spot Price USD)" l in
  let* c := getitem selected_data "Close" in
  let* c := series_mul c scaling_factor in
  let selected_data := setitem selected_data "Close (Spot Price USD)" c in
  let* selected_data := reset_index selected_data in
  let* d := getitem selected_data "Date" in
  let* d := dt_strftime d in
  Ok (setitem selected_data "Date" d).

(** Lines 82-83: the rows whose date is not among the dates read. *)
Definition select_new (selected_data existing_data : Frame unit)
  : result (Frame unit) :=
  let* d := getitem existing_data "Date" in
  let* existing_dates := dt_strftime d in
  let* s := getitem selected_data "Date" in
  Ok (mask_rows selected_data (map negb (isin s existing_dates))).

(** How a block ends: by [return], or by falling through with the values
    the rest of the function uses. *)
Inductive flow (A : Type) :=
| Return_
| Next (a : A).
Arguments Return_ {A}.
Arguments Next {A} a.

(** Lines 46-62. *)
Definition read_ledger (today_ : string)
  : M (flow (string * option (Frame unit))) :=
  try_except
    (f <- read_file ;;
     x <- lift (load_existing f) ;;
     let existing_data := fst x in
     let last_date := snd x in
     if String.eqb last_date today_
     then print ("Data for " ++ today_ ++ " already exists. Skipping update.") ;;;
          ret Return_
     else start_date <- lift (next_start last_date) ;;
          print ("Fetching new data starting from: " ++ start_date) ;;;
          ret (Next (start_date, Some existing_data)))
    (fun e =>
       match e with
       | ParserError =>
           Some (print "Error reading CSV file due to inconsistent data. Skipping..." ;;;
                 ret Return_)
       | _ => None
       end).

(** Lines 72-94, the body of the second [try]. *)
Definition process_and_update (historical_data : Frame cell)
    (existing_data : option (Frame unit)) : M unit :=
  selected_data <- lift (scale_and_relabel historical_data) ;;
  present <- path_exists ;;
  new_data <-
    (if present : bool
     then match existing_data with
          | Some existing_data => lift (select_new selected_data existing_data)
          | None => raise NameError
          end
     else ret selected_data) ;;
  if negb (empty new_data)
  then present <- path_exists ;;
       (if present : bool then to_csv_append new_data else to_csv_write new_data) ;;;
       print ("New data added for " ++ str (length (rows new_data)) ++ " days.")
  else print "No new data to add. All data already exists in the CSV file.".

(** Lines 64-96: the fetch, and what is done with its result. *)
Definition fetch_and_process (start_date today_ : string)
    (existing_data : option (Frame unit)) : M unit :=
  historical_data <- fetch_data_from_yfinance "GLD" start_date today_ ;;
  match historical_data with
  | None => print "No new data fetched from Yahoo Finance."
  | Some historical_data =>
      if empty historical_data
      then print "No new data fetched from Yahoo Finance."
      else
        try_except (process_and_update historical_data existing_data)
          (fun e => Some (print ("Error updating CSV file: " ++ exn_name e)))
  end.

Definition update_csv_file : M unit :=
  token <- getenv ;;
  if token_missing token
  then print "Error: GitHub token is missing. Set it as an environment variable."
  else
    t <- datetime_today ;;
    let today_ := strftime t in
    present <- path_exists ;;
    st <- (if present : bool
           then read_ledger today_
           else ret (Next ("2020-01-01", None))) ;;
    match st with
    | Return_ => ret tt
    | Next (start_date, existing_data) =>
        fetch_and_process start_date today_ existing_data
    end.

(** *** push_to_github (lines 99-131) *)

(** The base64 text of the content is kept as the content it encodes, and
    of the JSON body of an answer only the 'sha' key is kept: the messages
    of lines 113 and 129 are logged with the status code, without the
    body. *)

Definition push_to_github : M unit :=
  token <- getenv ;;
  if token_missing token
  then print "Error: GitHub token is missing. Set it as an environment variable."
  else
    try_except
      (t <- datetime_today ;;
       let commit_message := "Update gold price data: " ++ strftime t in
       content <- read_file ;;
       response <- requests_get ;;
       if negb (Nat.eqb (status_code response) 200)
       then print ("Error fetching file metadata: " ++ str (status_code response))
       else
         let sha := sha_field response in
         let encoded_content := content in
         response <- requests_put (mkPayload commit_message encoded_content sha) ;;
         if Nat.eqb (status_code response) 200 || Nat.eqb (status_code response) 201
         then print "Successfully updated the CSV file on GitHub."
         else print ("Error pushing to GitHub: " ++ str (status_code response)))
      (fun e => Some (print ("Error during GitHub push: " ++ exn_name e))).

(** *** main (lines 134-139) *)

(** The job [main] registers for every day at 00:00:
    [lambda: (update_csv_file(), push_to_github())].  The tuple evaluates
    its first element, then its second. *)
Definition job : M unit :=
  update_csv_file ;;; push_to_github.

(** The world a computation leaves, and its outcome. *)
Definition after {A} (m : M A) (w : World) : World := snd (m w).
Definition outcome {A} (m : M A) (w : World) : result A := fst (m w).

End Script.
Export Script.

(** ** The scheduler loop *)

Module Scheduler.

Local Open Scope string_scope.

(** One pass of the [while True] of [main]: the day the clock shows when
    [schedule.run_pending()] is called, and whether the job registered for
    00:00 is due at that moment.  When the job is due is the schedule
    library's decision and is an input here. *)
Record poll := mkPoll {
  now : Timestamp;
  due : bool
}.

Definition set_today (t : Timestamp) (w : World) : World :=
  mkWorld (GITHUB_TOKEN w) t (disk w) (yahoo w) (online w) (github w)
          (journal w).

(** [schedule.run_pending()]: runs the job when it is due.  The library
    does not catch what the job raises. *)
Definition run_pending (p : poll) : M unit :=
  fun w => if due p then job (set_today (now p) w)
           else (Ok tt, set_today (now p) w).

(** The first passes of the loop of lines 137-139, one per poll. *)
Fixpoint main_loop (polls : list poll) : M unit :=
  match polls with
  | [] => ret tt
  | p :: ps => run_pending p ;;; sleep 1 ;;; main_loop ps
  end.

(** [main] (lines 134-139), for the passes given. *)
Definition main (polls : list poll) : M unit :=
  print "Scheduler started. Waiting for the next job..." ;;; main_loop polls.

End Scheduler.
Export Scheduler.

(** ** The vocabulary of the statements *)

Section Vocabulary.

Definition msg_no_token : string :=
  "Error: GitHub token is missing. Set it as an environment variable.".
Definition msg_no_fetch : string := "No new data fetched from Yahoo Finance.".
Definition msg_nothing_new : string :=
  "No new data to add. All data already exists in the CSV file.".

(** The number the next history call has. *)
Definition call_number (w : World) : nat := length (history_calls (journal w)).

(** What lines 71-96 leave, the fetch having returned [df]. *)
Definition processed (df : Frame cell) (existing_data : option (Frame unit))
    (w : World) : result unit * World :=
  match scale_and_relabel df with
  | Raise e => (Ok tt, emit (Print ("Error updating CSV file: " ++ exn_name e)) w)
  | Ok selected_data =>
      match disk w with
      | None =>
          if empty selected_data then (Ok tt, emit (Print msg_nothing_new) w)
          else (Ok tt,
                emit (Print ("New data added for "
                             ++ str (length (rows selected_data)) ++ " days."))
                  (set_disk (Some (to_csv selected_data true)) w))
      | Some f =>
          match existing_data with
          | None =>
              (Ok tt, emit (Print ("Error updating CSV file: " ++ exn_name NameError)) w)
          | Some existing_data =>
              match select_new selected_data existing_data with
              | Raise e =>
                  (Ok tt, emit (Print ("Error updating CSV file: " ++ exn_name e)) w)
              | Ok new_data =>
                  if empty new_data then (Ok tt, emit (Print msg_nothing_new) w)
                  else (Ok tt,
                        emit (Print ("New data added for "
                                     ++ str (length (rows new_data)) ++ " days."))
                          (set_disk (Some (f ++ to_csv new_data false)%list) w))
              end
          end
      end
  end.

(** The date the first field of a line denotes. *)
Definition line_date (l : line) : option Timestamp :=
  match l with
  | FTxt s :: _ => to_datetime s
  | _ => None
  end.

(** The header of a file and the lines after it, blank lines aside. *)
Definition header_and_body (f : file) : option (line * list line) :=
  match filter (fun l => negb (blank l)) f with
  | [] => None
  | h :: b => Some (h, b)
  end.

(** The lines after the header that the reader keeps: those with no more
    fields than the header. *)
Definition kept_lines (f : file) : list line :=
  match header_and_body f with
  | Some (h, b) => filter (fun l => length l <=? length h) b
  | None => []
  end.

Definition dates_of (ls : list line) : list Timestamp :=
  flat_map (fun l => match line_date l with Some t => [t] | None => [] end) ls.

(** The parseable dates of a ledger, in file order. *)
Definition ledger_dates (f : file) : list Timestamp := dates_of (kept_lines f).

Fixpoint latest (ds : list Timestamp) : option Timestamp :=
  match ds with
  | [] => None
  | t :: ts => match latest ts with
               | Some u => Some (ts_max t u)
               | None => Some t
               end
  end.

(** The rows of [existing_data] after line 52. *)
Definition existing_rows (kept : list line) : list (unit * list cell) :=
  flat_map (fun l => match line_date l with
                     | Some t => [(tt, Stamp t :: tl (map parse_field (pad 5 l)))]
                     | None => []
                     end) kept.

Definition existing_frame (f : file) : Frame unit :=
  mkFrame None schema (existing_rows (kept_lines f)).

(** The history calls made so far, latest first. *)
Definition fetches (w : World) : list event := history_calls (journal w).

(** The number of fields of the header line. *)
Definition header_width (f : file) : nat :=
  match header_and_body f with
  | Some (h, _) => length h
  | None => 0
  end.

Definition day_2024_01_02 : Timestamp := mkTs 2024 1 2.
Definition day_2024_01_03 : Timestamp := mkTs 2024 1 3.
Definition day_2024_01_04 : Timestamp := mkTs 2024 1 4.
Definition day_2024_01_08 : Timestamp := mkTs 2024 1 8.

(** One row of GLD history, as the provider returns it. *)
Definition gld_row (t : Timestamp) (o h l c : float) : cell * list cell :=
  (Stamp t, [Num o; Num h; Num l; Num c; Num 1000000%float]).

Definition gld_frame (rs : list (cell * list cell)) : Frame cell :=
  mkFrame (Some "Date") ["Open"; "High"; "Low"; "Close"; "Volume"] rs.

Definition gld_2024_01_02 : Frame cell :=
  gld_frame [gld_row day_2024_01_02 190.0 191.5 189.25 190.75].

Definition gld_2024_01_03 : Frame cell :=
  gld_frame [gld_row day_2024_01_03 192.0 193.0 191.0 192.5].

(** A provider that has the row of 2024-01-02 only. *)
Definition provider_jan_02 (n : nat) (ticker start_date end_date : string)
  : provider_answer := Returns gld_2024_01_02.

(** A provider that has the row of 2024-01-03 only. *)
Definition provider_jan_03 (n : nat) (ticker start_date end_date : string)
  : provider_answer := Returns gld_2024_01_03.

(** A ledger in the persisted schema with the row of 2024-01-02. *)
Definition ledger_jan_02 : file :=
  [map FTxt schema;
   [FTxt "2024-01-02"; FNum 2046.3; FNum 2062.455; FNum 2038.2225; FNum 2054.3775]].

(** No ledger yet, on 2024-01-03. *)
Definition first_run : World :=
  mkWorld (Some "token") day_2024_01_03 None provider_jan_02 true None [].

(** The ledger of 2024-01-02, on 2024-01-04. *)
Definition later_run : World :=
  mkWorld (Some "token") day_2024_01_04 (Some ledger_jan_02) provider_jan_03
          true (Some (ledger_jan_02, 7)) [].

(** The columns of [selected_data] after line 79. *)
Definition written_columns : list string :=
  ["Date"; "Open"; "High"; "Low"; "Close";
   "Open (Spot Price USD)"; "High (Spot Price USD)";
   "Low (Spot Price USD)"; "Close (Spot Price USD)"].

Definition num_of (c : cell) : float :=
  match c with Num x => x | _ => nan end.

Definition is_num (c : cell) : bool :=
  match c with Num _ => true | _ => false end.

Definition is_datetime (c : cell) : bool :=
  match c with Stamp _ | NaT => true | _ => false end.

(** What [dt.strftime] makes of an index label. *)
Definition date_text (c : cell) : cell :=
  match c with Stamp t => Txt (strftime t) | _ => NaT end.

(** The cell a provider row has in a column. *)
Definition column_cell (df : Frame cell) (name : string) (r : cell * list cell)
  : cell :=
  match position name (columns df) with
  | Some i => cell_at i (snd r)
  | None => NaT
  end.

(** The provider's value in a column of a row. *)
Definition price (df : Frame cell) (name : string) (r : cell * list cell)
  : float := num_of (column_cell df name r).

(** The cells written for a provider row: the date as text, the provider's
    four prices, and the four prices times the scaling factor. *)
Definition scaled_cells (df : Frame cell) (r : cell * list cell) : list cell :=
  let o := price df "Open" r in
  let h := price df "High" r in
  let l := price df "Low" r in
  let c := price df "Close" r in
  [date_text (fst r); Num o; Num h; Num l; Num c;
   Num (PrimFloat.mul o scaling_factor); Num (PrimFloat.mul h scaling_factor);
   Num (PrimFloat.mul l scaling_factor); Num (PrimFloat.mul c scaling_factor)].

(** A provider row lines 72-79 accept: a datetime label and four numbers. *)
Definition priced (df : Frame cell) (r : cell * list cell) : Prop :=
  is_datetime (fst r) = true
  /\ is_num (column_cell df "Open" r) = true
  /\ is_num (column_cell df "High" r) = true
  /\ is_num (column_cell df "Low" r) = true
  /\ is_num (column_cell df "Close" r) = true.

(** The dates of the ledger as line 82 renders them. *)
Definition existing_dates (f : file) : list cell :=
  map (fun t => Txt (strftime t)) (ledger_dates f).

(** Line 83: the rows whose date text is none of the existing dates. *)
Definition new_rows (f : file) (sel : Frame unit) : list (unit * list cell) :=
  filter (fun r => negb (existsb (cell_eqb (cell_at 0 (snd r))) (existing_dates f)))
         (rows sel).

(** The latest event is the report of line 92. *)
Definition added_message (w : World) : Prop :=
  exists n, hd_error (journal w)
            = Some (Print ("New data added for " ++ str n ++ " days.")).

(** The data lines a run of [update_csv_file] adds to the ledger. *)
Definition written (w : World) : list line :=
  match disk w, disk (after update_csv_file w) with
  | None, Some f' => tl f'
  | Some f, Some f' => skipn (length f) f'
  | _, _ => []
  end.

(** The line persisted for a provider row with the given prices. *)
Definition persisted_line (label : cell) (o h l c : float) : line :=
  [render (date_text label); FNum o; FNum h; FNum l; FNum c;
   FNum (PrimFloat.mul o scaling_factor); FNum (PrimFloat.mul h scaling_factor);
   FNum (PrimFloat.mul l scaling_factor); FNum (PrimFloat.mul c scaling_factor)].

(** A provider whose frame lacks the Close column. *)
Definition gld_without_close : Frame cell :=
  mkFrame (Some "Date") ["Open"; "High"; "Low"]
    [(Stamp day_2024_01_03, [Num 192.0; Num 193.0; Num 191.0])].

Definition broken_provider_run : World :=
  mkWorld (Some "token") day_2024_01_04 (Some ledger_jan_02)
          (fun _ _ _ _ => Returns gld_without_close) true None [].

Definition is_put (e : event) : bool :=
  match e with HttpPut _ => true | _ => false end.

Definition is_sleep (e : event) : bool :=
  match e with Sleep _ => true | _ => false end.

(** The PUT requests and the sleeps of a journal, latest first. *)
Definition puts (w : World) : list event := filter is_put (journal w).
Definition sleeps (w : World) : list event := filter is_sleep (journal w).

Definition commit_message (w : World) : string :=
  "Update gold price data: " ++ strftime (today w).

(** The ledger of 2024-01-02 on disk, and a remote repository without the
    file. *)
Definition remote_absent_run : World :=
  mkWorld (Some "token") day_2024_01_04 (Some ledger_jan_02) provider_jan_03
          true None [].

(** The ledger already holds today's row, 2024-01-02. *)
Definition up_to_date_run : World :=
  mkWorld (Some "token") day_2024_01_02 (Some ledger_jan_02) provider_jan_03
          true (Some (ledger_jan_02, 7)) [].

(** A provider whose first answer is an error and whose later answers are
    the row of 2024-01-02. *)
Definition flaky_provider (n : nat) (ticker start_date end_date : string)
  : provider_answer :=
  match n with
  | 0 => Fails
  | S _ => Returns gld_2024_01_02
  end.

Definition flaky_run : World :=
  mkWorld (Some "token") day_2024_01_03 None flaky_provider true None [].

(** A provider that is down. *)
Definition down_run : World :=
  mkWorld (Some "token") day_2024_01_03 None (fun _ _ _ _ => Fails) true None [].

(** The row of 2024-01-03 as the script persists it. *)
Definition line_jan_03 : line :=
  persisted_line (Stamp day_2024_01_03) 192.0 193.0 191.0 192.5.

(** The dates of some lines, when every line has one. *)
Fixpoint all_dates (ls : list line) : option (list Timestamp) :=
  match ls with
  | [] => Some []
  | l :: ls' =>
      match line_date l, all_dates ls' with
      | Some t, Some ts => Some (t :: ts)
      | _, _ => None
      end
  end.

(** Strictly ascending: each date is earlier than the next. *)
Fixpoint ascending (ds : list Timestamp) : bool :=
  match ds with
  | [] => true
  | t :: ts =>
      match ts with
      | [] => true
      | u :: _ => ts_ltb t u && ascending ts
      end
  end.

(** A ledger whose lines after the header all carry a date, the dates
    strictly ascending (hence without duplicates). *)
Definition ledger_sorted (f : file) : bool :=
  match f with
  | [] => false
  | _ :: body =>
      match all_dates body with
      | Some ds => ascending ds
      | None => false
      end
  end.

(** The first line after the header has no more fields than the header:
    the reader then infers no index from the file and reads it as
    [read_csv] does. *)
Definition first_row_fits (f : file) : bool :=
  match header_and_body f with
  | Some (h, l :: _) => length l <=? length h
  | _ => true
  end.

(** The days a pandas Timestamp holds at nanosecond resolution in every
    year it reaches: the years 1678 to 2261.  On these days '%Y-%m-%d'
    renders the year with four digits on every platform, and the text is
    read back as the same day. *)
Definition plain_day (t : Timestamp) : bool :=
  (valid t && (1678 <=? year t)%Z && (year t <=? 2261)%Z)%bool.

(** A line whose date field the reader's [pd.to_datetime(...,
    errors='coerce')] treats as [to_datetime] does, whatever the other
    lines hold: the empty field, read as missing, or a plain day written
    YYYY-MM-DD. *)
Definition plain_date_field (l : line) : bool :=
  match l with
  | FTxt s :: _ =>
      match to_datetime s with
      | Some t => plain_day t
      | None => String.eqb s ""
      end
  | _ => false
  end.

(** The ledgers on which the reader of lines 47-52 is modelled exactly:
    the first row is no longer than the header, and every row kept has a
    plain date field (no number, no other date format, no day out of
    range). *)
Definition plain_ledger (f : file) : bool :=
  (first_row_fits f && forallb plain_date_field (kept_lines f))%bool.

(** The rational a finite float denotes. *)
Definition exact_value (x : float) : option Q :=
  match Prim2SF x with
  | S754_zero _ => Some (0 # 1)%Q
  | S754_finite s m e =>
      Some (Qmult (inject_Z (if s then Zneg m else Zpos m)) (Qpower (2 # 1) e))
  | _ => None
  end.

(** A provider that has the row of 2024-01-03 and nothing else, and
    answers a window with the rows it has from the start date on and before
    the end date. *)
Definition provider_in_window (n : nat) (ticker start_date end_date : string)
  : provider_answer :=
  match to_datetime start_date, to_datetime end_date with
  | Some s, Some e =>
      if (negb (ts_ltb day_2024_01_03 s) && ts_ltb day_2024_01_03 e)%bool
      then Returns gld_2024_01_03
      else Returns (gld_frame [])
  | _, _ => Fails
  end.

(** The ledger of 2024-01-02, on 2024-01-04, with that provider. *)
Definition window_run : World :=
  mkWorld (Some "token") day_2024_01_04 (Some ledger_jan_02) provider_in_window
          true (Some (ledger_jan_02, 7)) [].

(** The ledger a run on [window_run] leaves. *)
Definition appended_ledger : file := (ledger_jan_02 ++ [line_jan_03])%list.

End Vocabulary.

(** ** The vocabulary of the further properties *)

Section MoreVocabulary.

Definition is_get (e : event) : bool :=
  match e with HttpGet => true | _ => false end.

(** The GET requests of a journal, latest first. *)
Definition gets (w : World) : list event := filter is_get (journal w).

(** The provider raises at each of the next [k] calls. *)
Definition fails_next (w : World) (k : nat) (t s e : string) : Prop :=
  forall i, i < k -> yahoo w (call_number w + i) t s e = Fails.

(** From [w] to [w'] nothing happened outside the disk, the provider and the
    log: the configuration and the remote file are the same, and no GET,
    PUT or sleep was added. *)
Definition local_only (w w' : World) : Prop :=
  GITHUB_TOKEN w' = GITHUB_TOKEN w /\ today w' = today w
  /\ yahoo w' = yahoo w /\ online w' = online w /\ github w' = github w
  /\ gets w' = gets w /\ puts w' = puts w /\ sleeps w' = sleeps w.

(** The frame lines 72-79 make of the provider's frame. *)
Definition scaled_frame (df : Frame cell) : Frame unit :=
  mkFrame None written_columns (map (fun r => (tt, scaled_cells df r)) (rows df)).

(** The provider's frame has the four price columns. *)
Definition has_price_columns (df : Frame cell) : Prop :=
  exists ps, positions ["Open"; "High"; "Low"; "Close"] (columns df) = Some ps.

(** Whether line 83 keeps a provider row: its date text is none of the
    dates read from the ledger. *)
Definition kept_row (f : file) (r : cell * list cell) : bool :=
  negb (existsb (cell_eqb (date_text (fst r))) (existing_dates f)).

(** A ledger file without a line, one with a four-column header, and one
    with the five-column header and no row. *)
Definition empty_file_run : World :=
  mkWorld (Some "token") day_2024_01_04 (Some []) provider_jan_03 true None [].

Definition narrow_ledger : file :=
  [[FTxt "Date"; FTxt "Open"; FTxt "High"; FTxt "Low"];
   [FTxt "2024-01-02"; FNum 190.0; FNum 191.5; FNum 189.25]].

Definition narrow_run : World :=
  mkWorld (Some "token") day_2024_01_04 (Some narrow_ledger) provider_jan_03
          true None [].

Definition header_only_run : World :=
  mkWorld (Some "token") day_2024_01_04 (Some [map FTxt schema])
          provider_jan_03 true None [].

(** A five-column ledger whose only row has an empty date field. *)
Definition undated_ledger : file :=
  [map FTxt schema;
   [FTxt ""; FNum 2046.3; FNum 2062.455; FNum 2038.2225; FNum 2054.3775]].

Definition undated_run : World :=
  mkWorld (Some "token") day_2024_01_04 (Some undated_ledger)
          provider_jan_03 true None [].

(** The ledger of 2024-01-02, and a provider that still has that row only. *)
Definition stale_run : World :=
  mkWorld (Some "token") day_2024_01_04 (Some ledger_jan_02) provider_jan_02
          true (Some (ledger_jan_02, 7)) [].

(** The API cannot be reached. *)
Definition offline_run : World :=
  mkWorld (Some "token") day_2024_01_04 (Some ledger_jan_02) provider_jan_03
          false (Some (ledger_jan_02, 7)) [].

(** The token is not set. *)
Definition tokenless_run : World :=
  mkWorld None day_2024_01_04 (Some ledger_jan_02) provider_jan_03
          true (Some (ledger_jan_02, 7)) [].

(** The number of due polls. *)
Definition due_count (polls : list poll) : nat :=
  length (filter due polls).

End MoreVocabulary.

(** ** Facts about the calendar *)

Section CalendarFacts.

Local Open Scope Z_scope.

Lemma digit_value_digit (n : Z) : 0 <= n < 10 -> digit_value (digit n) = Some n.
Proof.
  intros H. destruct n as [|p|p]; [reflexivity| |lia].
  do 4 (try (destruct p as [p|p|]; try lia; try reflexivity)).
Qed.

Lemma digit_mod (n : Z) : digit n = digit (n mod 10).
Proof. unfold digit. now rewrite Z.mod_mod. Qed.

Lemma number2_pad (n : Z) :
  0 <= n < 100 -> number2 (digit (n / 10)) (digit n) = Some n.
Proof.
  intros H. unfold number2.
  rewrite digit_value_digit by (split; [apply Z.div_pos | apply Z.div_lt_upper_bound]; lia).
  rewrite (digit_mod n), digit_value_digit by (apply Z.mod_pos_bound; lia).
  f_equal. pose proof (Z.div_mod n 10). lia.
Qed.

Lemma number4_pad (n : Z) :
  0 <= n < 10000 ->
  number4 (digit (n / 1000)) (digit (n / 100)) (digit (n / 10)) (digit n) = Some n.
Proof.
  intros H. unfold number4.
  assert (H1 : number2 (digit (n / 1000)) (digit (n / 100)) = Some (n / 100)).
  { replace (n / 1000) with (n / 100 / 10) by (rewrite Z.div_div; lia || reflexivity).
    apply number2_pad.
    split; [apply Z.div_pos | apply Z.div_lt_upper_bound]; lia. }
  assert (H2 : number2 (digit (n / 10)) (digit n) = Some (n mod 100)).
  { pose proof (Z.mod_pos_bound n 100 ltac:(lia)) as B.
    pose proof (Z.div_mod n 100 ltac:(lia)) as E.
    assert (E1 : (n / 10) mod 10 = (n mod 100 / 10) mod 10).
    { replace (n / 10) with (n mod 100 / 10 + (n / 100) * 10).
      - now rewrite Z.mod_add by lia.
      - rewrite <- Z.div_add by lia. f_equal. lia. }
    assert (E2 : n mod 10 = (n mod 100) mod 10).
    { replace n with (n mod 100 + (10 * (n / 100)) * 10) at 1 by lia.
      now rewrite Z.mod_add by lia. }
    rewrite (digit_mod (n / 10)), (digit_mod n), E1, E2.
    rewrite <- (digit_mod (n mod 100 / 10)), <- (digit_mod (n mod 100)).
    now apply number2_pad. }
  rewrite H1, H2. f_equal.
  pose proof (Z.div_mod n 100). lia.
Qed.

Lemma days_in_month_le (y m : Z) : days_in_month y m <= 31.
Proof.
  unfold days_in_month.
  destruct m as [|p|p]; try lia.
  repeat (destruct p as [p|p|]; try lia); destruct (is_leap y); lia.
Qed.

Lemma valid_bounds (t : Timestamp) :
  valid t = true ->
  0 <= year t < 10000 /\ 0 <= month t < 100 /\ 0 <= day t < 100.
Proof.
  unfold valid. rewrite !andb_true_iff, !Z.leb_le.
  intros H. pose proof (days_in_month_le (year t) (month t)). lia.
Qed.

(** Reading back what [strftime] rendered gives the day rendered. *)
Lemma to_datetime_strftime (t : Timestamp) :
  valid t = true -> to_datetime (strftime t) = Some t.
Proof.
  intros Hv. destruct (valid_bounds t Hv) as (Hy & Hm & Hd).
  unfold strftime, pad4, pad2, to_datetime.
  rewrite (number4_pad _ Hy), (number2_pad _ Hm), (number2_pad _ Hd).
  destruct t as [y m d]. simpl in *. now rewrite Hv.
Qed.

(** Only days of the calendar are read. *)
Lemma to_datetime_valid (s : string) (t : Timestamp) :
  to_datetime s = Some t -> valid t = true.
Proof.
  unfold to_datetime. intros H.
  repeat match type of H with
         | match ?x with _ => _ end = _ => destruct x eqn:?; try discriminate
         | (if ?x then _ else _) = _ => destruct x eqn:?; try discriminate
         | (let _ := _ in _) = _ => cbv zeta in H
         end.
  now injection H as <-.
Qed.

End CalendarFacts.

(** ** The runs of the script, path by path *)

Section Paths.

Local Open Scope string_scope.

Lemma disk_emit (e : event) (w : World) : disk (emit e w) = disk w.
Proof. reflexivity. Qed.

Lemma fetch_and_process_eq (start_date today_ : string)
    (existing_data : option (Frame unit)) (w : World) :
  fetch_and_process start_date today_ existing_data w =
  let w1 := emit (History "GLD" start_date today_) w in
  match yahoo w (call_number w) "GLD" start_date today_ with
  | Fails =>
      (Ok tt,
       emit (Print msg_no_fetch)
         (emit (Print ("Error fetching data from Yahoo Finance: "
                       ++ exn_name ConnectionError)) w1))
  | Returns df =>
      if empty df then (Ok tt, emit (Print msg_no_fetch) w1)
      else processed df existing_data w1
  end.
Proof.
  unfold fetch_and_process, fetch_data_from_yfinance, history, try_except,
    bind, ret, print, call_number.
  destruct (yahoo w _ _ _ _) as [|df]; cbn [fst snd]; [reflexivity|].
  destruct (empty df); [reflexivity|].
  unfold processed, process_and_update, try_except, bind, lift, path_exists,
    raise, ret, print, to_csv_append, to_csv_write.
  destruct (scale_and_relabel df) as [sel|e]; [|reflexivity].
  cbn [disk emit].
  destruct (disk w) as [f|] eqn:Hd.
  - destruct existing_data as [ex|]; [|reflexivity].
    destruct (select_new sel ex) as [new|e]; [|reflexivity].
    destruct (empty new); cbn [negb]; rewrite ?disk_emit, ?Hd;
      cbn iota; rewrite ?disk_emit, ?Hd; reflexivity.
  - destruct (empty sel); cbn [negb]; rewrite ?disk_emit, ?Hd;
      cbn iota; rewrite ?disk_emit, ?Hd; reflexivity.
Qed.

Lemma update_csv_file_eq (w : World) :
  update_csv_file w =
  if token_missing (GITHUB_TOKEN w) then (Ok tt, emit (Print msg_no_token) w)
  else
    let today_ := strftime (today w) in
    match disk w with
    | None => fetch_and_process "2020-01-01" today_ None w
    | Some f =>
        match load_existing f with
        | Raise ParserError =>
            (Ok tt,
             emit (Print "Error reading CSV file due to inconsistent data. Skipping...") w)
        | Raise e => (Raise e, w)
        | Ok (existing_data, last_date) =>
            if String.eqb last_date today_
            then (Ok tt,
                  emit (Print ("Data for " ++ today_
                               ++ " already exists. Skipping update.")) w)
            else
              match next_start last_date with
              | Raise ParserError =>
                  (Ok tt,
                   emit (Print "Error reading CSV file due to inconsistent data. Skipping...") w)
              | Raise e => (Raise e, w)
              | Ok start_date =>
                  fetch_and_process start_date today_ (Some existing_data)
                    (emit (Print ("Fetching new data starting from: " ++ start_date)) w)
              end
        end
    end.
Proof.
  unfold update_csv_file, bind, getenv, datetime_today, path_exists.
  destruct (token_missing (GITHUB_TOKEN w)); [reflexivity|].
  destruct (disk w) as [f|] eqn:Hd; [|reflexivity].
  unfold read_ledger, try_except, bind, read_file, lift, ret, print.
  rewrite Hd.
  destruct (load_existing f) as [[ex last]|e]; cbn [fst snd].
  - destruct (String.eqb last (strftime (today w))); [reflexivity|].
    destruct (next_start last) as [s|e]; [reflexivity|].
    destruct e; reflexivity.
  - destruct e; reflexivity.
Qed.

End Paths.

(** ** The ledger as the script reads it *)

Section Ledger.

Lemma date_column_pipeline (kept : list line) :
  let rows0 := map (fun l => (tt, map parse_field (pad 5 l))) kept in
  let dates := to_datetime_coerce (map (fun r => cell_at 0 (snd r)) rows0) in
  filter (fun r : unit * list cell => negb (is_nat (cell_at 0 (snd r))))
    (map (fun rv : (unit * list cell) * cell =>
            (fst (fst rv), update_at 0 (snd rv) (snd (fst rv))))
         (combine rows0 dates))
  = existing_rows kept.
Proof.
  cbv zeta. unfold to_datetime_coerce.
  induction kept as [|l kept IH]; [reflexivity|].
  cbn [map combine filter fst snd].
  unfold existing_rows. cbn [flat_map]. fold (existing_rows kept).
  rewrite <- IH. clear IH.
  destruct l as [|[x|s] l]; try reflexivity.
  unfold line_date. cbn [pad map parse_field cell_at nth snd].
  destruct (to_datetime s); reflexivity.
Qed.

Lemma existing_rows_dates (kept : list line) :
  map (fun r : unit * list cell => cell_at 0 (snd r)) (existing_rows kept)
  = map Stamp (dates_of kept).
Proof.
  induction kept as [|l kept IH]; [reflexivity|].
  unfold existing_rows, dates_of in *. cbn [flat_map].
  rewrite !map_app, IH. f_equal.
  destruct (line_date l); reflexivity.
Qed.

Lemma series_max_stamps (ds : list Timestamp) :
  series_max (map Stamp ds)
  = match latest ds with Some D => Stamp D | None => NaT end.
Proof.
  induction ds as [|t ds IH]; [reflexivity|].
  cbn [map series_max latest]. rewrite IH.
  destruct (latest ds); reflexivity.
Qed.

Lemma position_date_schema : position "Date" schema = Some 0.
Proof. reflexivity. Qed.

Lemma getitem_existing_frame (f : file) :
  getitem (existing_frame f) "Date" = Ok (map Stamp (ledger_dates f)).
Proof.
  unfold getitem, existing_frame. cbn [columns rows].
  rewrite position_date_schema. f_equal. apply existing_rows_dates.
Qed.

(** Lines 47-54, case by case. *)
Lemma load_existing_eq (f : file) :
  load_existing f =
  match header_and_body f with
  | None => Raise EmptyDataError
  | Some (h, _) =>
      if length h =? 5
      then match latest (ledger_dates f) with
           | Some D => Ok (existing_frame f, strftime D)
           | None => Raise ValueError
           end
      else Raise ValueError
  end.
Proof.
  unfold load_existing, read_csv, ledger_dates, existing_frame, kept_lines,
    header_and_body.
  destruct (filter (fun l => negb (blank l)) f) as [|h b]; [reflexivity|].
  cbn [rbind]. unfold set_columns. cbn [columns length schema].
  rewrite length_map.
  replace (5 =? length h) with (length h =? 5) by apply Nat.eqb_sym.
  destruct (length h =? 5) eqn:Hn; [|reflexivity].
  apply Nat.eqb_eq in Hn. rewrite Hn.
  cbn [rbind]. unfold getitem at 1. cbn [columns rows].
  rewrite position_date_schema. cbn [rbind].
  unfold setitem. cbn [columns rows index_name].
  rewrite position_date_schema.
  unfold dropna. cbn [columns rows index_name].
  rewrite position_date_schema. cbn [rbind].
  rewrite date_column_pipeline.
  unfold getitem. cbn [columns rows].
  rewrite position_date_schema. cbn [rbind].
  rewrite existing_rows_dates, series_max_stamps.
  destruct (latest _); reflexivity.
Qed.

End Ledger.

(** ** Facts about the calendar order *)

Section Order.

Local Open Scope Z_scope.

Lemma ts_ltb_spec (a b : Timestamp) :
  ts_ltb a b = true <->
  year a < year b
  \/ (year a = year b
      /\ (month a < month b \/ (month a = month b /\ day a < day b))).
Proof.
  unfold ts_ltb.
  rewrite !orb_true_iff, !andb_true_iff, !orb_true_iff, !andb_true_iff,
    !Z.ltb_lt, !Z.eqb_eq.
  tauto.
Qed.

Lemma ts_lt_irrefl (a : Timestamp) : ~ ts_lt a a.
Proof. unfold ts_lt. rewrite ts_ltb_spec. lia. Qed.

Lemma ts_lt_trans (a b c : Timestamp) : ts_lt a b -> ts_lt b c -> ts_lt a c.
Proof. unfold ts_lt. rewrite !ts_ltb_spec. lia. Qed.

Lemma ts_total (a b : Timestamp) : ts_lt a b \/ a = b \/ ts_lt b a.
Proof.
  unfold ts_lt. rewrite !ts_ltb_spec.
  destruct a as [ya ma da], b as [yb mb db]. cbn [year month day].
  assert (C : ya < yb \/ yb < ya \/ ya = yb) by lia.
  assert (C2 : ma < mb \/ mb < ma \/ ma = mb) by lia.
  assert (C3 : da < db \/ db < da \/ da = db) by lia.
  destruct C as [?|[?| ->]]; [lia | lia |].
  destruct C2 as [?|[?| ->]]; [lia | lia |].
  destruct C3 as [?|[?| ->]]; [lia | lia |].
  right. left. reflexivity.
Qed.

Lemma valid_spec (t : Timestamp) :
  valid t = true <->
  1 <= year t <= 9999 /\ 1 <= month t <= 12
  /\ 1 <= day t <= days_in_month (year t) (month t).
Proof.
  unfold valid. rewrite !andb_true_iff, !Z.leb_le. tauto.
Qed.

Lemma days_in_month_ge (y m : Z) : 28 <= days_in_month y m.
Proof.
  unfold days_in_month.
  destruct m as [|p|p]; try lia.
  repeat (destruct p as [p|p|]; try lia); destruct (is_leap y); lia.
Qed.

(** [add_one_day] yields the next day of the calendar: a valid day, later
    than the given one, with no day in between. *)
Lemma add_one_day_next (t u : Timestamp) :
  valid t = true -> add_one_day t = Some u ->
  valid u = true /\ ts_lt t u
  /\ forall x, valid x = true -> ts_lt t x -> x = u \/ ts_lt u x.
Proof.
  intros Hv H. apply valid_spec in Hv.
  unfold add_one_day in H.
  pose proof (days_in_month_ge (year t) (month t)) as G.
  destruct (day t <? _) eqn:Hd.
  - apply Z.ltb_lt in Hd. injection H as <-.
    repeat split.
    + apply valid_spec. cbn [year month day]. lia.
    + unfold ts_lt. apply ts_ltb_spec. cbn [year month day]. lia.
    + intros x Hx Hlt. apply valid_spec in Hx.
      unfold ts_lt in *. rewrite ts_ltb_spec in *. cbn [year month day].
      destruct x as [yx mx dx]. cbn [year month day] in *.
      assert (C : dx = day t + 1 \/ dx <> day t + 1) by lia.
      destruct C as [->|C].
      * assert (C2 : yx = year t /\ mx = month t \/ ~ (yx = year t /\ mx = month t))
          by lia.
        destruct C2 as [[-> ->]|C2]; [left; reflexivity | right; lia].
      * right. lia.
  - apply Z.ltb_ge in Hd.
    destruct (month t <? 12) eqn:Hm.
    + apply Z.ltb_lt in Hm. injection H as <-.
      pose proof (days_in_month_ge (year t) (month t + 1)) as G2.
      repeat split.
      * apply valid_spec. cbn [year month day]. lia.
      * unfold ts_lt. apply ts_ltb_spec. cbn [year month day]. lia.
      * intros x Hx Hlt. apply valid_spec in Hx.
        unfold ts_lt in *. rewrite ts_ltb_spec in *. cbn [year month day].
        destruct x as [yx mx dx]. cbn [year month day] in *.
        assert (N : ~ (yx = year t /\ mx = month t))
          by (intros [E1 E2]; subst yx mx; lia).
        assert (C : yx = year t /\ mx = month t + 1 /\ dx = 1
                    \/ ~ (yx = year t /\ mx = month t + 1 /\ dx = 1)) by lia.
        destruct C as [(-> & -> & ->)|C]; [left; reflexivity | right; lia].
    + apply Z.ltb_ge in Hm.
      destruct (year t <? 9999) eqn:Hy; [|discriminate].
      apply Z.ltb_lt in Hy. injection H as <-.
      repeat split.
      * apply valid_spec. cbn [year month day]. cbn. lia.
      * unfold ts_lt. apply ts_ltb_spec. cbn [year month day]. lia.
      * intros x Hx Hlt. apply valid_spec in Hx.
        unfold ts_lt in *. rewrite ts_ltb_spec in *. cbn [year month day].
        destruct x as [yx mx dx]. cbn [year month day] in *.
        assert (N : ~ (yx = year t /\ mx = month t))
          by (intros [E1 E2]; subst yx mx; lia).
        assert (C : yx = year t + 1 /\ mx = 1 /\ dx = 1
                    \/ ~ (yx = year t + 1 /\ mx = 1 /\ dx = 1)) by lia.
        destruct C as [(-> & -> & ->)|C]; [left; reflexivity | right; lia].
Qed.

(** A day with a valid later day has a next day. *)
Lemma add_one_day_defined (t x : Timestamp) :
  valid t = true -> valid x = true -> ts_lt t x ->
  exists u, add_one_day t = Some u.
Proof.
  intros Ht Hx Hlt. apply valid_spec in Ht, Hx.
  unfold ts_lt in Hlt. rewrite ts_ltb_spec in Hlt.
  unfold add_one_day.
  destruct (day t <? _) eqn:Hd; [eauto|]. apply Z.ltb_ge in Hd.
  destruct (month t <? 12) eqn:Hm; [eauto|]. apply Z.ltb_ge in Hm.
  destruct (year t <? 9999) eqn:Hy; [eauto|]. apply Z.ltb_ge in Hy.
  exfalso.
  pose proof (days_in_month_le (year x) (month x)).
  pose proof (days_in_month_le (year t) (month t)).
  assert (month t = 12) by lia.
  assert (E : days_in_month (year t) (month t) = 31)
    by (replace (month t) with 12 by lia; reflexivity).
  lia.
Qed.

Lemma strftime_inj (a b : Timestamp) :
  valid a = true -> valid b = true -> strftime a = strftime b -> a = b.
Proof.
  intros Ha Hb E.
  apply to_datetime_strftime in Ha, Hb. rewrite E in Ha. congruence.
Qed.

Lemma ts_max_cases (a b : Timestamp) :
  (ts_max a b = a /\ ~ ts_lt a b) \/ (ts_max a b = b /\ ts_lt a b).
Proof.
  unfold ts_max, ts_lt. destruct (ts_ltb a b); [right | left]; split;
    congruence.
Qed.

(** The latest date of a list is one of its dates, and none is later. *)
Lemma latest_spec (ds : list Timestamp) (D : Timestamp) :
  latest ds = Some D ->
  In D ds /\ forall t, In t ds -> t = D \/ ts_lt t D.
Proof.
  revert D. induction ds as [|a ds IH]; [discriminate|].
  cbn [latest]. intros D H.
  destruct (latest ds) as [u|] eqn:Hu.
  - injection H as <-. destruct (IH u eq_refl) as [Hin Hmax].
    destruct (ts_max_cases a u) as [[-> Hn]|[-> Hl]].
    + split; [now left|]. intros t [<-|Ht]; [now left|].
      destruct (Hmax t Ht) as [->|Hlt].
      * destruct (ts_total u a) as [?|[?|?]]; [now right | now left | contradiction].
      * destruct (ts_total u a) as [?|[?|?]].
        -- right. eapply ts_lt_trans; eassumption.
        -- subst. now right.
        -- contradiction.
    + split; [now right|]. intros t [<-|Ht]; [now right | now apply Hmax].
  - injection H as <-. destruct ds; [|cbn in Hu; destruct (latest ds); discriminate].
    split; [now left|]. intros t [<-|[]]. now left.
Qed.

End Order.

(** ** The fetch window *)

Section FetchWindow.

Local Open Scope string_scope.

Lemma fetches_print (text : string) (w : World) :
  fetches (emit (Print text) w) = fetches w.
Proof. reflexivity. Qed.

Lemma processed_fetches (df : Frame cell) (ex : option (Frame unit)) (w : World) :
  fetches (snd (processed df ex w)) = fetches w.
Proof.
  unfold processed.
  repeat match goal with
         | |- context [match ?x with _ => _ end] => destruct x
         end; reflexivity.
Qed.

(** A run that reaches line 65 makes one history call, for GLD, over the
    window it was given. *)
Lemma fetch_and_process_fetches (start_date today_ : string)
    (ex : option (Frame unit)) (w : World) :
  fetches (snd (fetch_and_process start_date today_ ex w))
  = History "GLD" start_date today_ :: fetches w.
Proof.
  rewrite fetch_and_process_eq. cbv zeta.
  destruct (yahoo w _ _ _ _) as [|df]; [reflexivity|].
  destruct (empty df); [reflexivity|].
  now rewrite processed_fetches.
Qed.

Lemma line_date_valid (l : line) (t : Timestamp) :
  line_date l = Some t -> valid t = true.
Proof.
  destruct l as [|[x|s] l]; try discriminate. apply to_datetime_valid.
Qed.

Lemma dates_of_valid (ls : list line) (t : Timestamp) :
  In t (dates_of ls) -> valid t = true.
Proof.
  unfold dates_of. rewrite in_flat_map. intros (l & _ & H).
  destruct (line_date l) eqn:E; [|contradiction].
  destruct H as [<-|[]]. eapply line_date_valid; eassumption.
Qed.

Lemma next_start_strftime (D D' : Timestamp) :
  valid D = true -> add_one_day D = Some D' ->
  next_start (strftime D) = Ok (strftime D').
Proof.
  intros Hv H. unfold next_start, scalar_to_datetime, plus_one_day.
  rewrite (to_datetime_strftime _ Hv). cbn [rbind]. now rewrite H.
Qed.

Lemma ledger_dates_header (f : file) :
  ledger_dates f <> [] -> exists h b, header_and_body f = Some (h, b).
Proof.
  unfold ledger_dates, kept_lines.
  destruct (header_and_body f) as [[h b]|]; [eauto|]. now intros [].
Qed.

Lemma plain_day_valid (t : Timestamp) : plain_day t = true -> valid t = true.
Proof.
  unfold plain_day. intros H.
  apply andb_true_iff in H. destruct H as [H _].
  apply andb_true_iff in H. tauto.
Qed.

Lemma plain_dates_of (ls : list line) (t : Timestamp) :
  forallb plain_date_field ls = true -> In t (dates_of ls) -> plain_day t = true.
Proof.
  induction ls as [|l ls IH]; [intros _ []|].
  cbn [forallb dates_of flat_map]. intros H Hin.
  apply andb_true_iff in H. destruct H as [Hl Hls].
  apply in_app_or in Hin. destruct Hin as [Hin|Hin]; [|now apply IH].
  unfold plain_date_field in Hl. unfold line_date in Hin.
  destruct l as [|[x|s] l']; try discriminate Hl.
  destruct (to_datetime s) as [u|]; [|destruct Hin].
  destruct Hin as [<-|[]]. exact Hl.
Qed.

Lemma plain_ledger_dates (f : file) (t : Timestamp) :
  plain_ledger f = true -> In t (ledger_dates f) -> plain_day t = true.
Proof.
  unfold plain_ledger, ledger_dates. intros H.
  apply andb_true_iff in H. destruct H as [_ H]. now apply plain_dates_of.
Qed.

(** C2 (the code departs from the claim).  With no ledger the window
    starts at 2020-01-01.  On the ledger of 2024-01-02 the run of
    2024-01-04 asks for the window from 2024-01-03 and appends the row of
    2024-01-03, with nine fields.  In the ledger it leaves every line has a
    date, and the latest, 2024-01-03, is earlier than today; yet the next
    run asks for the window from 2024-01-03 again, not from 2024-01-04:
    the reader skips the line the script appended, and the last date it
    sees is still 2024-01-02. *)
Theorem fetch_window_restarts :
  let w1 := after update_csv_file window_run in
  fetches (after update_csv_file first_run)
  = [History "GLD" "2020-01-01" "2024-01-03"]
  /\ fetches w1 = [History "GLD" "2024-01-03" "2024-01-04"]
  /\ disk w1 = Some appended_ledger
  /\ all_dates (tl appended_ledger) = Some [day_2024_01_02; day_2024_01_03]
  /\ latest [day_2024_01_02; day_2024_01_03] = Some day_2024_01_03
  /\ ts_lt day_2024_01_03 (today w1)
  /\ option_map strftime (add_one_day day_2024_01_03) = Some "2024-01-04"
  /\ ledger_dates appended_ledger = [day_2024_01_02]
  /\ fetches (after update_csv_file w1)
     = [History "GLD" "2024-01-03" "2024-01-04";
        History "GLD" "2024-01-03" "2024-01-04"].
Proof.
  cbv zeta. repeat split; vm_compute; reflexivity.
Qed.

End FetchWindow.

(** ** The rows the script makes of the provider's rows *)

Section Scaling.

Local Open Scope string_scope.

Lemma combine_map_map {A B C} (f : A -> B) (g : A -> C) (l : list A) :
  combine (map f l) (map g l) = map (fun x => (f x, g x)) l.
Proof. induction l as [|a l IH]; simpl; [reflexivity | now rewrite IH]. Qed.

Lemma series_mul_map {A} (g : A -> cell) (l : list A) (k : float)
    (o : list cell) :
  series_mul (map g l) k = Ok o ->
  o = map (fun r => Num (PrimFloat.mul (num_of (g r)) k)) l
  /\ Forall (fun r => is_num (g r) = true) l.
Proof.
  revert o. induction l as [|a l IH]; cbn [map series_mul]; intros o H.
  - injection H as <-. split; [reflexivity | constructor].
  - destruct (g a) eqn:Ha; try discriminate.
    destruct (series_mul (map g l) k) as [rest|e]; [|discriminate].
    injection H as <-. destruct (IH rest eq_refl) as [-> HF].
    split; [reflexivity|].
    constructor; [cbv beta; now rewrite Ha | exact HF].
Qed.

Lemma dt_strftime_map {A} (g : A -> cell) (l : list A) (d : list cell) :
  dt_strftime (map g l) = Ok d ->
  d = map (fun r => date_text (g r)) l
  /\ Forall (fun r => is_datetime (g r) = true) l.
Proof.
  revert d. induction l as [|a l IH]; cbn [map dt_strftime]; intros d H.
  - injection H as <-. split; [reflexivity | constructor].
  - destruct (g a) eqn:Ha; try discriminate;
      (destruct (dt_strftime (map g l)) as [rest|e]; [|discriminate]);
      injection H as <-; destruct (IH rest eq_refl) as [-> HF];
      (split; [reflexivity|]);
      (constructor; [cbv beta; now rewrite Ha | exact HF]).
Qed.

Lemma positions_four (a b c d : string) (cols : list string) (ps : list nat) :
  positions [a; b; c; d] cols = Some ps ->
  exists i j k l,
    position a cols = Some i /\ position b cols = Some j
    /\ position c cols = Some k /\ position d cols = Some l
    /\ ps = [i; j; k; l].
Proof.
  cbn [positions].
  destruct (position a cols) as [i|]; [|discriminate].
  destruct (position b cols) as [j|]; [|discriminate].
  destruct (position c cols) as [k|]; [|discriminate].
  destruct (position d cols) as [l|]; [|discriminate].
  intros H. injection H as <-. now exists i, j, k, l.
Qed.

Lemma getitem_map {L A} (n : option string) (cols : list string)
    (F : A -> L * list cell) (R : list A) (name : string) (i : nat) :
  position name cols = Some i ->
  getitem (mkFrame n cols (map F R)) name
  = Ok (map (fun r => cell_at i (snd (F r))) R).
Proof.
  intros H. unfold getitem. cbn [columns rows]. rewrite H, map_map.
  reflexivity.
Qed.

Lemma setitem_new_map {L A} (n : option string) (cols : list string)
    (F : A -> L * list cell) (G : A -> cell) (R : list A) (name : string) :
  position name cols = None ->
  setitem (mkFrame n cols (map F R)) name (map G R)
  = mkFrame n (cols ++ [name])%list
      (map (fun r => (fst (F r), (snd (F r) ++ [G r])%list)) R).
Proof.
  intros H. unfold setitem. cbn [columns rows index_name].
  rewrite H, combine_map_map, map_map. reflexivity.
Qed.

Lemma setitem_old_map {L A} (n : option string) (cols : list string)
    (F : A -> L * list cell) (G : A -> cell) (R : list A) (name : string)
    (i : nat) :
  position name cols = Some i ->
  setitem (mkFrame n cols (map F R)) name (map G R)
  = mkFrame n cols
      (map (fun r => (fst (F r), update_at i (G r) (snd (F r)))) R).
Proof.
  intros H. unfold setitem. cbn [columns rows index_name].
  rewrite H, combine_map_map, map_map. reflexivity.
Qed.

Lemma reset_index_map {A} (n : option string) (cols : list string)
    (F : A -> cell * list cell) (R : list A) :
  reset_index (mkFrame n cols (map F R))
  = let name := match n with Some x => x | None => "index" end in
    if existsb (String.eqb name) cols then Raise ValueError
    else Ok (mkFrame None (name :: cols)
               (map (fun r => (tt, fst (F r) :: snd (F r))) R)).
Proof.
  unfold reset_index. cbn [columns rows index_name]. now rewrite map_map.
Qed.

(** Lines 72-79, when they raise nothing. *)
Lemma scale_and_relabel_ok (df : Frame cell) (sel : Frame unit) :
  scale_and_relabel df = Ok sel ->
  columns sel = written_columns
  /\ rows sel = map (fun r => (tt, scaled_cells df r)) (rows df)
  /\ Forall (priced df) (rows df).
Proof.
  unfold scale_and_relabel, getitem_list.
  destruct (positions _ (columns df)) as [ps|] eqn:Hps; [|discriminate].
  apply positions_four in Hps.
  destruct Hps as (iO & iH & iL & iC & HO & HH & HL & HC & ->).
  cbn [rbind map].
  set (R := rows df).
  (* Open *)
  erewrite getitem_map by reflexivity. cbn [rbind snd cell_at nth].
  destruct (series_mul _ scaling_factor) as [o|e] eqn:Ho; [|discriminate].
  apply series_mul_map in Ho. destruct Ho as [-> FO].
  cbn [rbind]. rewrite setitem_new_map by reflexivity. cbn [fst snd app].
  (* High *)
  erewrite getitem_map by reflexivity. cbn [rbind snd cell_at nth].
  destruct (series_mul _ scaling_factor) as [h|e] eqn:Hh; [|discriminate].
  apply series_mul_map in Hh. destruct Hh as [-> FH].
  cbn [rbind]. rewrite setitem_new_map by reflexivity. cbn [fst snd app].
  (* Low *)
  erewrite getitem_map by reflexivity. cbn [rbind snd cell_at nth].
  destruct (series_mul _ scaling_factor) as [l|e] eqn:Hl; [|discriminate].
  apply series_mul_map in Hl. destruct Hl as [-> FL].
  cbn [rbind]. rewrite setitem_new_map by reflexivity. cbn [fst snd app].
  (* Close *)
  erewrite getitem_map by reflexivity. cbn [rbind snd cell_at nth].
  destruct (series_mul _ scaling_factor) as [c|e] eqn:Hc; [|discriminate].
  apply series_mul_map in Hc. destruct Hc as [-> FC].
  cbn [rbind]. rewrite setitem_new_map by reflexivity. cbn [fst snd app].
  (* reset_index and the date *)
  rewrite reset_index_map. cbv zeta.
  destruct (index_name df) as [name|].
  2:{ cbn [existsb]. intros H. vm_compute in H. discriminate. }
  destruct (existsb _ _) eqn:Hex; [discriminate|].
  cbn [rbind].
  destruct (String.eqb "Date" name) eqn:Hname.
  2:{ unfold getitem. cbn [columns rows position]. rewrite Hname.
      intros H. vm_compute in H. discriminate. }
  apply String.eqb_eq in Hname. subst name.
  erewrite getitem_map by reflexivity. cbn [rbind snd cell_at nth].
  destruct (dt_strftime _) as [d|e] eqn:Hd; [|discriminate].
  apply dt_strftime_map in Hd. destruct Hd as [-> FD].
  cbn [rbind]. erewrite setitem_old_map by reflexivity.
  cbn [fst snd update_at].
  intros H. injection H as <-. cbn [columns rows].
  split; [reflexivity|]. split.
  - unfold scaled_cells, price, column_cell. rewrite HO, HH, HL, HC.
    apply map_ext_in. intros r Hr. f_equal. f_equal.
    rewrite Forall_forall in FO, FH, FL, FC.
    specialize (FO r Hr). specialize (FH r Hr).
    specialize (FL r Hr). specialize (FC r Hr).
    destruct (cell_at iO (snd r)); try discriminate.
    destruct (cell_at iH (snd r)); try discriminate.
    destruct (cell_at iL (snd r)); try discriminate.
    destruct (cell_at iC (snd r)); try discriminate.
    reflexivity.
  - unfold priced, column_cell. rewrite HO, HH, HL, HC.
    rewrite Forall_forall in *. intros r Hr.
    repeat split; auto. exact (FD r Hr).
Qed.

End Scaling.

(** ** What a run writes *)

Section Writes.

Local Open Scope string_scope.

Lemma mask_filter {A} (g : A -> bool) (l : list A) :
  map fst (filter snd (combine l (map g l))) = filter g l.
Proof.
  induction l as [|a l IH]; [reflexivity|].
  cbn [map combine filter snd]. destruct (g a); cbn [map fst]; now rewrite IH.
Qed.

Lemma dt_strftime_stamps (ds : list Timestamp) :
  dt_strftime (map Stamp ds) = Ok (map (fun t => Txt (strftime t)) ds).
Proof.
  induction ds as [|t ds IH]; [reflexivity|].
  cbn [map dt_strftime]. now rewrite IH.
Qed.

Lemma select_new_eq (sel : Frame unit) (f : file) :
  columns sel = written_columns ->
  select_new sel (existing_frame f)
  = Ok (mkFrame (index_name sel) (columns sel) (new_rows f sel)).
Proof.
  intros Hc. unfold select_new.
  rewrite getitem_existing_frame. cbn [rbind].
  rewrite dt_strftime_stamps. cbn [rbind].
  unfold getitem. rewrite Hc.
  change (position "Date" written_columns) with (Some 0). cbn [rbind].
  unfold mask_rows, isin. rewrite !map_map.
  rewrite (mask_filter
             (fun r : unit * list cell =>
                negb (existsb (cell_eqb (cell_at 0 (snd r)))
                        (map (fun t => Txt (strftime t)) (ledger_dates f))))).
  now rewrite Hc.
Qed.

(** The ledger after a run: unchanged; or created from the provider's rows,
    header first; or the old ledger followed by the rows of the provider
    whose date text is not among the existing dates. *)
Lemma update_disk (w : World) :
  let w' := after update_csv_file w in
  let T := strftime (today w) in
  disk w' = disk w
  \/ (exists start df sel,
        disk w = None
        /\ yahoo w (call_number w) "GLD" start T = Returns df
        /\ scale_and_relabel df = Ok sel
        /\ disk w' = Some (to_csv sel true)
        /\ added_message w')
  \/ (exists f start df sel,
        disk w = Some f
        /\ yahoo w (call_number w) "GLD" start T = Returns df
        /\ scale_and_relabel df = Ok sel
        /\ header_width f = 5
        /\ disk w' = Some (f ++ map (fun r => map render (snd r)) (new_rows f sel))%list
        /\ added_message w').
Proof.
  cbv zeta. unfold after. rewrite update_csv_file_eq.
  destruct (token_missing _); [now left|]. cbv zeta.
  destruct (disk w) as [f|] eqn:Hd.
  - rewrite load_existing_eq. unfold header_width.
    destruct (header_and_body f) as [[h b]|] eqn:Hh; [|now left].
    destruct (Nat.eqb_spec (length h) 5) as [E5|N5]; [|now left].
    destruct (latest (ledger_dates f)) as [D|]; [|now left].
    destruct (String.eqb _ _); [now left|].
    destruct (next_start (strftime D)) as [s|e]; [|destruct e; now left].
    rewrite fetch_and_process_eq. cbv zeta.
    change (call_number (emit _ w)) with (call_number w).
    change (yahoo (emit _ w)) with (yahoo w).
    destruct (yahoo w _ _ _ _) as [|df] eqn:Hy; [now left|].
    destruct (empty df); [now left|].
    unfold processed.
    destruct (scale_and_relabel df) as [sel|e] eqn:Hs; [|now left].
    rewrite !disk_emit, Hd.
    destruct (scale_and_relabel_ok df sel Hs) as (Hc & _ & _).
    rewrite (select_new_eq sel f Hc).
    destruct (empty _) eqn:He; [now left|].
    right. right. exists f, s, df, sel. rewrite Hh.
    repeat split; try first [assumption | reflexivity].
    eexists. reflexivity.
  - rewrite fetch_and_process_eq. cbv zeta.
    destruct (yahoo w _ _ _ _) as [|df] eqn:Hy; [cbn; rewrite Hd; now left|].
    destruct (empty df); [cbn; rewrite Hd; now left|].
    unfold processed.
    destruct (scale_and_relabel df) as [sel|e] eqn:Hs;
      [|cbn; rewrite Hd; now left].
    rewrite !disk_emit, Hd.
    destruct (empty sel); [cbn; rewrite Hd; now left|].
    right. left. exists "2020-01-01", df, sel.
    repeat split; try first [assumption | reflexivity].
    eexists. reflexivity.
Qed.

End Writes.

(** ** Scaling *)

Section ScalingCorrectness.

Local Open Scope string_scope.

Lemma skipn_length_app {A} (l extra : list A) :
  skipn (length l) (l ++ extra) = extra.
Proof. induction l as [|a l IH]; [reflexivity | exact IH]. Qed.

Lemma skipn_length {A} (l : list A) : skipn (length l) l = [].
Proof. induction l as [|a l IH]; [reflexivity | exact IH]. Qed.

Lemma written_cases (w : World) :
  written w = []
  \/ (exists start df sel,
        yahoo w (call_number w) "GLD" start (strftime (today w)) = Returns df
        /\ scale_and_relabel df = Ok sel
        /\ disk w = None
        /\ written w = map (fun r => map render (snd r)) (rows sel))
  \/ (exists f start df sel,
        yahoo w (call_number w) "GLD" start (strftime (today w)) = Returns df
        /\ scale_and_relabel df = Ok sel
        /\ disk w = Some f
        /\ written w = map (fun r => map render (snd r)) (new_rows f sel)).
Proof.
  unfold written.
  destruct (update_disk w) as [H|[(s & df & sel & Hd & Hy & Hs & H & _)
                                 |(f & s & df & sel & Hd & Hy & Hs & _ & H & _)]];
    cbv zeta in H; rewrite H.
  - left. destruct (disk w) as [f|]; [apply skipn_length | reflexivity].
  - right. left. exists s, df, sel. rewrite Hd. repeat split; assumption.
  - right. right. exists f, s, df, sel. rewrite Hd, skipn_length_app.
    repeat split; assumption.
Qed.

Lemma persisted_line_of_row (df : Frame cell) (sel : Frame unit)
    (rs : list (unit * list cell)) (l : line) :
  scale_and_relabel df = Ok sel ->
  (forall r, In r rs -> In r (rows sel)) ->
  In l (map (fun r => map render (snd r)) rs) ->
  exists r o h lo c,
    In r (rows df)
    /\ column_cell df "Open" r = Num o /\ column_cell df "High" r = Num h
    /\ column_cell df "Low" r = Num lo /\ column_cell df "Close" r = Num c
    /\ l = persisted_line (fst r) o h lo c.
Proof.
  intros Hs Hsub Hl.
  destruct (scale_and_relabel_ok df sel Hs) as (_ & Hrows & Hp).
  apply in_map_iff in Hl. destruct Hl as (r' & <- & Hr').
  apply Hsub in Hr'. rewrite Hrows in Hr'.
  apply in_map_iff in Hr'. destruct Hr' as (r & <- & Hr).
  rewrite Forall_forall in Hp. destruct (Hp r Hr) as (_ & HO & HH & HL & HC).
  unfold scaled_cells, price. cbn [snd map render].
  destruct (column_cell df "Open" r) as [o| | |] eqn:EO; try discriminate.
  destruct (column_cell df "High" r) as [h| | |] eqn:EH; try discriminate.
  destruct (column_cell df "Low" r) as [lo| | |] eqn:EL; try discriminate.
  destruct (column_cell df "Close" r) as [c| | |] eqn:EC; try discriminate.
  exists r, o, h, lo, c. repeat split; try assumption; reflexivity.
Qed.

(** C3 (the claim fails; this is what the code does).  Every line
    [update_csv_file] persists comes from a row the provider returned for
    this run, and carries, in the four fields lines 74-77 compute (the
    columns the script labels "... (Spot Price USD)", fields 6 to 9 of the
    line), the provider's open, high, low and close each multiplied by
    10.77 in binary64 arithmetic, which rounds; with no ledger and a
    provider row of 2024-01-02 with open 190.0 and low 189.25, the
    persisted open is 2046.3 and the persisted low 2038.2224999999999. *)
Theorem scaled_prices_persisted :
  (forall w l,
     In l (written w) ->
     exists start df r o h lo c,
       yahoo w (call_number w) "GLD" start (strftime (today w)) = Returns df
       /\ In r (rows df)
       /\ column_cell df "Open" r = Num o /\ column_cell df "High" r = Num h
       /\ column_cell df "Low" r = Num lo /\ column_cell df "Close" r = Num c
       /\ l = persisted_line (fst r) o h lo c
       /\ nth 5 l (FTxt "") = FNum (PrimFloat.mul o 10.77)
       /\ nth 6 l (FTxt "") = FNum (PrimFloat.mul h 10.77)
       /\ nth 7 l (FTxt "") = FNum (PrimFloat.mul lo 10.77)
       /\ nth 8 l (FTxt "") = FNum (PrimFloat.mul c 10.77))
  /\ map (fun l => (nth 0 l (FTxt ""), nth 5 l (FTxt ""))) (written first_run)
     = [(FTxt "2024-01-02", FNum 2046.3)]
  /\ map (fun l => nth 7 l (FTxt "")) (written first_run)
     = [FNum 2038.2224999999999].
Proof.
  split; [|split; vm_compute; reflexivity].
  intros w l Hl.
  destruct (written_cases w) as [H|[(s & df & sel & Hy & Hs & _ & H)
                                   |(f & s & df & sel & Hy & Hs & _ & H)]];
    rewrite H in Hl; [destruct Hl| |].
  - destruct (persisted_line_of_row df sel (rows sel) l Hs (fun r Hr => Hr) Hl)
      as (r & o & h & lo & c & Hr & HO & HH & HL & HC & ->).
    exists s, df, r, o, h, lo, c. repeat split; assumption.
  - assert (Hsub : forall r, In r (new_rows f sel) -> In r (rows sel)).
    { intros r Hr. unfold new_rows in Hr. apply filter_In in Hr. tauto. }
    destruct (persisted_line_of_row df sel _ l Hs Hsub Hl)
      as (r & o & h & lo & c & Hr & HO & HH & HL & HC & ->).
    exists s, df, r, o, h, lo, c. repeat split; assumption.
Qed.

(** C3, counterexample: the provider's low of 2024-01-02 is 189.25, and
    189.25 times 10.77 is 2038.2225; the scaled low the first run persists
    is another number, and not the double nearest to 2038.2225 either.
    The same line also persists the low as the provider gave it, 189.25,
    which is not 189.25 times 10.77. *)
Lemma persisted_low_is_not_exact :
  exists low x p q,
    map (column_cell gld_2024_01_02 "Low") (rows gld_2024_01_02) = [Num low]
    /\ map (fun l => nth 7 l (FTxt "")) (written first_run) = [FNum x]
    /\ exact_value low = Some p /\ exact_value x = Some q
    /\ (p == 18925 # 100)%Q
    /\ ~ (q == p * (1077 # 100))%Q
    /\ PrimFloat.eqb x 2038.2225 = false
    /\ map (fun l => nth 3 l (FTxt "")) (written first_run) = [FNum low]
    /\ PrimFloat.eqb low (PrimFloat.mul low scaling_factor) = false.
Proof.
  exists 189.25%float, (PrimFloat.mul 189.25 10.77).
  eexists. eexists.
  split; [vm_compute; reflexivity|].
  split; [vm_compute; reflexivity|].
  split; [vm_compute; reflexivity|].
  split; [vm_compute; reflexivity|].
  split; [vm_compute; reflexivity|].
  split; [|repeat split; vm_compute; reflexivity].
  intros E. vm_compute in E. discriminate E.
Qed.

Lemma scaled_prices_persisted_witness :
  exists start df r o h lo c,
    yahoo first_run (call_number first_run) "GLD" start
      (strftime (today first_run)) = Returns df
    /\ In r (rows df)
    /\ column_cell df "Open" r = Num o /\ column_cell df "High" r = Num h
    /\ column_cell df "Low" r = Num lo /\ column_cell df "Close" r = Num c
    /\ persisted_line (Stamp day_2024_01_02) 190.0 191.5 189.25 190.75
       = persisted_line (fst r) o h lo c
    /\ nth 5 (persisted_line (Stamp day_2024_01_02) 190.0 191.5 189.25 190.75)
         (FTxt "") = FNum (PrimFloat.mul o 10.77)
    /\ nth 6 (persisted_line (Stamp day_2024_01_02) 190.0 191.5 189.25 190.75)
         (FTxt "") = FNum (PrimFloat.mul h 10.77)
    /\ nth 7 (persisted_line (Stamp day_2024_01_02) 190.0 191.5 189.25 190.75)
         (FTxt "") = FNum (PrimFloat.mul lo 10.77)
    /\ nth 8 (persisted_line (Stamp day_2024_01_02) 190.0 191.5 189.25 190.75)
         (FTxt "") = FNum (PrimFloat.mul c 10.77).
Proof.
  apply (proj1 scaled_prices_persisted first_run
           (persisted_line (Stamp day_2024_01_02) 190.0 191.5 189.25 190.75)).
  vm_compute. left. reflexivity.
Defined.

End ScalingCorrectness.

(** ** The ledger is only appended to *)

Section AppendOnly.

Local Open Scope string_scope.

(** An exception in lines 72-94 is raised before anything is written. *)
Lemma process_and_update_raise (historical_data : Frame cell)
    (existing_data : option (Frame unit)) (w : World) (e : exn) :
  outcome (process_and_update historical_data existing_data) w = Raise e ->
  after (process_and_update historical_data existing_data) w = w.
Proof.
  unfold outcome, after, process_and_update, bind, lift, path_exists, raise,
    ret, print, to_csv_append, to_csv_write.
  destruct (scale_and_relabel historical_data) as [sel|e1]; [|reflexivity].
  destruct (disk w) as [f|] eqn:Hd.
  - destruct existing_data as [ex|]; [|reflexivity].
    destruct (select_new sel ex) as [new|e1]; [|reflexivity].
    destruct (empty new); cbn [negb fst snd]; rewrite ?Hd; cbn [fst snd];
      discriminate.
  - destruct (empty sel); cbn [negb fst snd]; rewrite ?Hd; cbn [fst snd];
      discriminate.
Qed.

(** C10. [update_csv_file] only appends: the ledger a run finds is a prefix
    of the ledger it leaves; an exception raised by the column processing
    of lines 72-94 leaves the ledger as it was; and a run that ends by
    reporting such an exception has left the ledger as it was. *)
Theorem ledger_append_only :
  (forall w f,
     disk w = Some f ->
     exists extra, disk (after update_csv_file w) = Some (f ++ extra)%list)
  /\ (forall historical_data existing_data w e,
        outcome (process_and_update historical_data existing_data) w = Raise e ->
        disk (after (process_and_update historical_data existing_data) w)
        = disk w)
  /\ (forall w e,
        hd_error (journal (after update_csv_file w))
        = Some (Print ("Error updating CSV file: " ++ exn_name e)) ->
        disk (after update_csv_file w) = disk w).
Proof.
  split; [|split].
  - intros w f Hd.
    destruct (update_disk w) as [H|[(s & df & sel & Hn & _)
                                   |(f' & s & df & sel & Hd' & _ & _ & _ & H & _)]].
    + exists []. cbv zeta in H. now rewrite H, Hd, app_nil_r.
    + congruence.
    + rewrite Hd in Hd'. injection Hd' as <-. eauto.
  - intros hd ex w e H. now rewrite (process_and_update_raise hd ex w e H).
  - intros w e Hj.
    destruct (update_disk w) as [H|[(s & df & sel & _ & _ & _ & _ & n & Hn)
                                   |(f' & s & df & sel & _ & _ & _ & _ & _ & n & Hn)]];
      [exact H| |]; rewrite Hj in Hn; discriminate Hn.
Qed.

Lemma ledger_append_only_witness :
  (exists extra,
     disk (after update_csv_file later_run) = Some (ledger_jan_02 ++ extra)%list)
  /\ disk (after (process_and_update gld_without_close None) broken_provider_run)
     = disk broken_provider_run
  /\ disk (after update_csv_file broken_provider_run) = disk broken_provider_run.
Proof.
  split; [|split].
  - exact (proj1 ledger_append_only later_run ledger_jan_02 eq_refl).
  - exact (proj1 (proj2 ledger_append_only) gld_without_close None
             broken_provider_run KeyError eq_refl).
  - exact (proj2 (proj2 ledger_append_only) broken_provider_run KeyError eq_refl).
Defined.

End AppendOnly.

(** ** The persisted schema *)

Section Schema.

Local Open Scope string_scope.

(** Every line a run writes has nine fields. *)
Lemma written_line_width (w : World) (l : line) :
  In l (written w) -> length l = 9.
Proof.
  intros Hl.
  destruct (written_cases w) as [H|[(s & df & sel & _ & Hs & _ & H)
                                   |(f & s & df & sel & _ & Hs & _ & H)]];
    rewrite H in Hl; [destruct Hl| |].
  - destruct (persisted_line_of_row df sel (rows sel) l Hs (fun r Hr => Hr) Hl)
      as (r & o & h & lo & c & _ & _ & _ & _ & _ & ->).
    reflexivity.
  - assert (Hsub : forall r, In r (new_rows f sel) -> In r (rows sel)).
    { intros r Hr. unfold new_rows in Hr. apply filter_In in Hr. tauto. }
    destruct (persisted_line_of_row df sel _ l Hs Hsub Hl)
      as (r & o & h & lo & c & _ & _ & _ & _ & _ & ->).
    reflexivity.
Qed.

(** C1 (the code departs from the claim). With no ledger, the file the
    first run creates has a nine-column header: the date, the provider's
    Open, High, Low and Close, and the four scaled columns; it is not the
    five-column schema.  On a ledger in the five-column schema the row the
    run appends has nine fields. *)
Theorem first_run_writes_nine_columns :
  disk (after update_csv_file first_run)
  = Some [map FTxt written_columns;
          persisted_line (Stamp day_2024_01_02) 190.0 191.5 189.25 190.75]
  /\ map FTxt written_columns <> map FTxt schema
  /\ length written_columns = 9
  /\ written later_run
     = [persisted_line (Stamp day_2024_01_03) 192.0 193.0 191.0 192.5]
  /\ map (@length field) (written later_run) = [9].
Proof.
  repeat split; try (vm_compute; reflexivity).
  intros H. discriminate H.
Qed.

End Schema.

(** ** Publication *)

Section Publication.

Local Open Scope string_scope.

(** [push_to_github], case by case. *)
Lemma push_to_github_eq (w : World) :
  push_to_github w =
  if token_missing (GITHUB_TOKEN w) then (Ok tt, emit (Print msg_no_token) w)
  else
    match disk w with
    | None =>
        (Ok tt,
         emit (Print ("Error during GitHub push: " ++ exn_name FileNotFoundError)) w)
    | Some f =>
        if online w then
          match github w with
          | None =>
              (Ok tt,
               emit (Print ("Error fetching file metadata: " ++ str 404))
                 (emit HttpGet w))
          | Some (_, s) =>
              let body := mkPayload (commit_message w) f (Some s) in
              (Ok tt,
               emit (Print "Successfully updated the CSV file on GitHub.")
                 (set_github (Some (f, S s)) (emit (HttpPut body) (emit HttpGet w))))
          end
        else
          (Ok tt,
           emit (Print ("Error during GitHub push: " ++ exn_name ConnectionError))
             (emit HttpGet w))
    end.
Proof.
  unfold push_to_github, bind, getenv.
  destruct (token_missing (GITHUB_TOKEN w)); [reflexivity|].
  unfold try_except, bind, datetime_today, read_file, requests_get,
    requests_put, print, commit_message.
  destruct (disk w) as [f|]; [|reflexivity].
  destruct (online w) eqn:Ho; [|reflexivity].
  destruct (github w) as [[c s]|] eqn:Hg; cbn [api_get status_code sha_field].
  - cbn [Nat.eqb negb online emit github api_put sha]. rewrite Ho, Hg.
    cbn [api_put sha]. rewrite Nat.eqb_refl. reflexivity.
  - reflexivity.
Qed.

(** The job runs [push_to_github] after an [update_csv_file] that returned,
    and stops at an exception of [update_csv_file]. *)
Lemma job_eq (w : World) :
  job w = match update_csv_file w with
          | (Ok _, w') => push_to_github w'
          | (Raise e, w') => (Raise e, w')
          end.
Proof. reflexivity. Qed.

(** C7 (the claim fails; this is what the code does).  With the token set,
    the ledger on disk and the API reachable: when the remote file does not
    exist, the GET answers 404, the publication is abandoned with a logged
    error, no PUT is issued and the file is not created; when it exists
    with version token s, one PUT is issued carrying the ledger and s, and
    the remote file becomes the ledger. *)
Theorem push_replaces_only_existing (w : World) (f : file) :
  token_missing (GITHUB_TOKEN w) = false ->
  disk w = Some f ->
  online w = true ->
  let w' := after push_to_github w in
  outcome push_to_github w = Ok tt
  /\ (github w = None ->
      puts w' = puts w /\ github w' = None
      /\ journal w'
         = Print ("Error fetching file metadata: " ++ str 404)
             :: HttpGet :: journal w)
  /\ (forall c s,
        github w = Some (c, s) ->
        puts w' = HttpPut (mkPayload (commit_message w) f (Some s)) :: puts w
        /\ github w' = Some (f, S s)).
Proof.
  intros Ht Hd Ho. cbv zeta. unfold outcome, after.
  rewrite push_to_github_eq, Ht, Hd, Ho.
  destruct (github w) as [[c s]|] eqn:Hg.
  - split; [reflexivity|]. split; [discriminate|].
    intros c' s' E. injection E as <- <-. split; reflexivity.
  - split; [reflexivity|]. split; [|discriminate].
    intros _. cbn [snd]. repeat split; try reflexivity. exact Hg.
Qed.

(** C7, counterexample: the remote file does not exist, and
    [push_to_github] issues no PUT and creates nothing. *)
Lemma push_does_not_create :
  github remote_absent_run = None
  /\ puts (after push_to_github remote_absent_run) = []
  /\ github (after push_to_github remote_absent_run) = None.
Proof. repeat split. Qed.

Lemma push_replaces_only_existing_witness :
  outcome push_to_github later_run = Ok tt
  /\ (github later_run = None ->
      puts (after push_to_github later_run) = puts later_run
      /\ github (after push_to_github later_run) = None
      /\ journal (after push_to_github later_run)
         = Print ("Error fetching file metadata: " ++ str 404)
             :: HttpGet :: journal later_run)
  /\ (forall c s,
        github later_run = Some (c, s) ->
        puts (after push_to_github later_run)
        = HttpPut (mkPayload (commit_message later_run) ledger_jan_02 (Some s))
            :: puts later_run
        /\ github (after push_to_github later_run) = Some (ledger_jan_02, S s)).
Proof.
  exact (push_replaces_only_existing later_run ledger_jan_02
           eq_refl eq_refl eq_refl).
Defined.

End Publication.

(** ** The daily job *)

Section Job.

Local Open Scope string_scope.

Lemma update_up_to_date (w : World) (f : file) :
  token_missing (GITHUB_TOKEN w) = false ->
  disk w = Some f -> header_width f = 5 ->
  latest (ledger_dates f) = Some (today w) ->
  update_csv_file w
  = (Ok tt,
     emit (Print ("Data for " ++ strftime (today w)
                  ++ " already exists. Skipping update.")) w).
Proof.
  intros Ht Hd Hw HD. rewrite update_csv_file_eq, Ht, Hd, load_existing_eq.
  unfold header_width in Hw.
  destruct (header_and_body f) as [[h b]|]; [|discriminate].
  rewrite Hw, HD. cbn [Nat.eqb]. cbv zeta. now rewrite String.eqb_refl.
Qed.

(** C5 (the claim fails; this is what the code does).  On a plain ledger
    of five columns whose latest date is today, [update_csv_file] returns
    without calling the provider, without writing and without a network
    call; the job then calls [push_to_github] all the same, which sends one
    GET for the unchanged ledger and, when the GET is answered with 200
    (the API is reached and the remote file exists), one PUT carrying the
    ledger and the version token of the answer. *)
Theorem up_to_date_skips_update_only (w : World) (f : file) :
  token_missing (GITHUB_TOKEN w) = false ->
  disk w = Some f -> header_width f = 5 -> plain_ledger f = true ->
  latest (ledger_dates f) = Some (today w) ->
  let w1 := after update_csv_file w in
  let w2 := after job w in
  outcome update_csv_file w = Ok tt
  /\ fetches w1 = fetches w /\ disk w1 = Some f
  /\ gets w1 = gets w /\ puts w1 = puts w
  /\ outcome job w = Ok tt
  /\ w2 = after push_to_github w1
  /\ fetches w2 = fetches w /\ disk w2 = Some f
  /\ gets w2 = HttpGet :: gets w
  /\ (online w = true ->
      forall c s,
        github w = Some (c, s) ->
        puts w2 = HttpPut (mkPayload (commit_message w) f (Some s)) :: puts w
        /\ github w2 = Some (f, S s))
  /\ (online w = false \/ github w = None ->
      puts w2 = puts w /\ github w2 = github w).
Proof.
  intros Ht Hd Hw _ HD.
  pose proof (update_up_to_date w f Ht Hd Hw HD) as E.
  cbv zeta. unfold outcome, after. rewrite job_eq, E. cbn [fst snd].
  repeat (split; [first [reflexivity | assumption]|]).
  rewrite push_to_github_eq. cbn [GITHUB_TOKEN disk online github emit].
  rewrite Ht, Hd.
  destruct (online w); [destruct (github w) as [[c s]|] eqn:Hg|];
    cbn [fst snd].
  - repeat (split; [first [reflexivity | assumption]|]). split.
    + intros _ c' s' H. injection H as <- <-. split; reflexivity.
    + intros [H|H]; discriminate H.
  - repeat (split; [first [reflexivity | assumption]|]). split.
    + intros _ c' s' H. discriminate H.
    + intros _. split; [reflexivity | exact Hg].
  - repeat (split; [first [reflexivity | assumption]|]). split.
    + intros H. discriminate H.
    + intros _. split; reflexivity.
Qed.

(** C5, counterexample: the latest date is today, and the tick still
    publishes: one GET and one PUT are sent, and the remote file gets a new
    version. *)
Lemma publish_attempted_when_up_to_date :
  latest (ledger_dates ledger_jan_02) = Some (today up_to_date_run)
  /\ fetches (after job up_to_date_run) = []
  /\ disk (after job up_to_date_run) = Some ledger_jan_02
  /\ gets (after job up_to_date_run) = [HttpGet]
  /\ puts (after job up_to_date_run)
     = [HttpPut (mkPayload "Update gold price data: 2024-01-02"
                   ledger_jan_02 (Some 7))]
  /\ github up_to_date_run = Some (ledger_jan_02, 7)
  /\ github (after job up_to_date_run) = Some (ledger_jan_02, 8).
Proof. repeat split. Qed.

Lemma up_to_date_skips_update_only_witness :
  fetches (after job up_to_date_run) = fetches up_to_date_run
  /\ gets (after job up_to_date_run) = HttpGet :: gets up_to_date_run
  /\ puts (after job up_to_date_run)
     = HttpPut (mkPayload (commit_message up_to_date_run) ledger_jan_02 (Some 7))
         :: puts up_to_date_run.
Proof.
  destruct (up_to_date_skips_update_only up_to_date_run ledger_jan_02
              eq_refl eq_refl eq_refl eq_refl eq_refl)
    as (_ & _ & _ & _ & _ & _ & _ & Hf & _ & Hg & Hp & _).
  split; [exact Hf|]. split; [exact Hg|].
  exact (proj1 (Hp eq_refl ledger_jan_02 7 eq_refl)).
Defined.

(** *** The fetch and the retry wrapper *)

Lemma update_no_sleep (w : World) :
  sleeps (after update_csv_file w) = sleeps w.
Proof.
  unfold after. rewrite update_csv_file_eq. cbv zeta.
  destruct (token_missing _); [reflexivity|].
  assert (F : forall s ex w0, sleeps (snd (fetch_and_process s (strftime (today w)) ex w0))
                              = sleeps w0).
  { intros s ex w0. rewrite fetch_and_process_eq. cbv zeta.
    destruct (yahoo w0 _ _ _ _) as [|df]; [reflexivity|].
    destruct (empty df); [reflexivity|].
    unfold processed.
    repeat match goal with
           | |- context [match ?x with _ => _ end] => destruct x
           end; reflexivity. }
  destruct (disk w) as [f|]; [|apply F].
  destruct (load_existing f) as [[ex last]|e]; [|destruct e; reflexivity].
  destruct (String.eqb _ _); [reflexivity|].
  destruct (next_start last) as [s|e]; [|destruct e; reflexivity].
  now rewrite F.
Qed.

Lemma update_fetches (w : World) :
  fetches (after update_csv_file w) = fetches w
  \/ exists s,
       fetches (after update_csv_file w)
       = History "GLD" s (strftime (today w)) :: fetches w.
Proof.
  unfold after. rewrite update_csv_file_eq. cbv zeta.
  destruct (token_missing _); [now left|].
  destruct (disk w) as [f|].
  - destruct (load_existing f) as [[ex last]|e]; [|destruct e; now left].
    destruct (String.eqb _ _); [now left|].
    destruct (next_start last) as [s|e]; [|destruct e; now left].
    right. exists s. now rewrite fetch_and_process_fetches.
  - right. exists "2020-01-01". now rewrite fetch_and_process_fetches.
Qed.

(** C6 (the claim fails; this is what the code does).  A run of
    [update_csv_file] calls the provider at most once and never sleeps; a
    call that raises is caught by the fetcher and the run ends with "No new
    data fetched", nothing being written.  [retry] itself, given a call that
    keeps raising, makes its 3 attempts, sleeps 5 seconds after each and
    returns None; no call of the script goes through it. *)
Theorem fetch_attempted_once :
  (forall w,
     (fetches (after update_csv_file w) = fetches w
      \/ exists s, fetches (after update_csv_file w)
                   = History "GLD" s (strftime (today w)) :: fetches w)
     /\ sleeps (after update_csv_file w) = sleeps w)
  /\ (forall w s T ex,
        yahoo w (call_number w) "GLD" s T = Fails ->
        outcome (fetch_and_process s T ex) w = Ok tt
        /\ disk (after (fetch_and_process s T ex) w) = disk w
        /\ hd_error (journal (after (fetch_and_process s T ex) w))
           = Some (Print msg_no_fetch))
  /\ (forall w t s e,
        (forall n, yahoo w n t s e = Fails) ->
        outcome (retry (history t s e) 3 5) w = Ok None
        /\ fetches (after (retry (history t s e) 3 5) w)
           = (History t s e :: History t s e :: History t s e :: fetches w)
        /\ sleeps (after (retry (history t s e) 3 5) w)
           = (Sleep 5 :: Sleep 5 :: Sleep 5 :: sleeps w)).
Proof.
  split; [|split].
  - intros w. split; [apply update_fetches | apply update_no_sleep].
  - intros w s T ex H. unfold outcome, after.
    rewrite fetch_and_process_eq. cbv zeta. rewrite H. repeat split.
  - intros w t s e H.
    unfold outcome, after, retry, retry_loop, try_except, bind, history,
      print, sleep, ret.
    repeat (cbn [yahoo emit journal history_calls filter is_history length
                 fst snd]; rewrite H).
    repeat split.
Qed.

(** C6, counterexample: the first call raises and a second would succeed,
    yet the run calls the provider once, does not sleep, and writes
    nothing. *)
Lemma fetch_is_not_retried :
  yahoo flaky_run 0 "GLD" "2020-01-01" "2024-01-03" = Fails
  /\ yahoo flaky_run 1 "GLD" "2020-01-01" "2024-01-03" = Returns gld_2024_01_02
  /\ fetches (after update_csv_file flaky_run)
     = [History "GLD" "2020-01-01" "2024-01-03"]
  /\ sleeps (after update_csv_file flaky_run) = []
  /\ disk (after update_csv_file flaky_run) = None.
Proof. repeat split. Qed.

Lemma fetch_attempted_once_witness :
  (outcome (fetch_and_process "2020-01-01" "2024-01-03" None) flaky_run = Ok tt
   /\ disk (after (fetch_and_process "2020-01-01" "2024-01-03" None) flaky_run)
      = disk flaky_run
   /\ hd_error (journal (after (fetch_and_process "2020-01-01" "2024-01-03" None)
                           flaky_run))
      = Some (Print msg_no_fetch))
  /\ (outcome (retry (history "GLD" "2020-01-01" "2024-01-03") 3 5) down_run
      = Ok None
      /\ fetches (after (retry (history "GLD" "2020-01-01" "2024-01-03") 3 5)
                    down_run)
         = (History "GLD" "2020-01-01" "2024-01-03"
            :: History "GLD" "2020-01-01" "2024-01-03"
            :: History "GLD" "2020-01-01" "2024-01-03" :: fetches down_run)
      /\ sleeps (after (retry (history "GLD" "2020-01-01" "2024-01-03") 3 5)
                   down_run)
         = (Sleep 5 :: Sleep 5 :: Sleep 5 :: sleeps down_run)).
Proof.
  split.
  - exact (proj1 (proj2 fetch_attempted_once) flaky_run
             "2020-01-01" "2024-01-03" None eq_refl).
  - exact (proj2 (proj2 fetch_attempted_once) down_run
             "GLD" "2020-01-01" "2024-01-03" (fun n => eq_refl)).
Defined.

End Job.

(** ** Dates as text *)

Section DateText.

Local Open Scope Z_scope.

Lemma digit_of_value (c : ascii) (v : Z) :
  digit_value c = Some v -> 0 <= v <= 9 /\ digit v = c.
Proof.
  destruct c as [[] [] [] [] [] [] [] []]; vm_compute; intros H;
    try discriminate H; injection H as <-; split;
    first [reflexivity | split; discriminate].
Qed.

Lemma div_small_step (x y : Z) :
  0 <= y <= 9 -> (10 * x + y) / 10 = x /\ (10 * x + y) mod 10 = y.
Proof.
  intros H.
  replace (10 * x + y) with (y + x * 10) by lia.
  rewrite Z.div_add, Z.mod_add by lia.
  rewrite Z.div_small, Z.mod_small by lia. lia.
Qed.

Lemma pad2_number2 (a b : ascii) (n : Z) (rest : string) :
  number2 a b = Some n -> pad2 n rest = String a (String b rest).
Proof.
  unfold number2, pad2.
  destruct (digit_value a) as [x|] eqn:Ha; [|discriminate].
  destruct (digit_value b) as [y|] eqn:Hb; [|discriminate].
  intros H. assert (E : n = 10 * x + y) by congruence. subst n. clear H.
  apply digit_of_value in Ha, Hb. destruct Ha as [Rx <-], Hb as [Ry <-].
  destruct (div_small_step x y Ry) as [E1 E2].
  rewrite (digit_mod (10 * x + y)), E1, E2. reflexivity.
Qed.

Lemma number2_range (a b : ascii) (n : Z) :
  number2 a b = Some n -> 0 <= n <= 99.
Proof.
  unfold number2.
  destruct (digit_value a) as [x|] eqn:Ha; [|discriminate].
  destruct (digit_value b) as [y|] eqn:Hb; [|discriminate].
  intros H. assert (E : n = 10 * x + y) by congruence. subst n. clear H.
  apply digit_of_value in Ha, Hb. lia.
Qed.

Lemma pad4_number4 (a b c d : ascii) (n : Z) (rest : string) :
  number4 a b c d = Some n ->
  pad4 n rest = String a (String b (String c (String d rest))).
Proof.
  unfold number4, pad4.
  destruct (number2 a b) as [p|] eqn:Hp; [|discriminate].
  destruct (number2 c d) as [q|] eqn:Hq; [|discriminate].
  intros H. assert (E : n = 100 * p + q) by congruence. subst n. clear H.
  pose proof (number2_range _ _ _ Hq) as Rq.
  assert (E100 : (100 * p + q) / 100 = p).
  { replace (100 * p + q) with (q + p * 100) by lia.
    rewrite Z.div_add, Z.div_small by lia. lia. }
  assert (E1000 : (100 * p + q) / 1000 = p / 10).
  { rewrite <- E100 at 2. rewrite Z.div_div by lia. reflexivity. }
  assert (Epad : pad2 (100 * p + q) rest = pad2 q rest).
  { unfold pad2.
    rewrite (digit_mod ((100 * p + q) / 10)), (digit_mod (100 * p + q)).
    rewrite (digit_mod (q / 10)), (digit_mod q).
    replace ((100 * p + q) / 10) with (q / 10 + p * 10).
    2:{ replace (100 * p + q) with (q + (p * 10) * 10) by lia.
        now rewrite Z.div_add by lia. }
    rewrite Z.mod_add by lia.
    replace (100 * p + q) with (q + (p * 10) * 10) by lia.
    now rewrite Z.mod_add by lia. }
  rewrite E1000, E100, Epad.
  rewrite (pad2_number2 c d q rest Hq).
  pose proof (pad2_number2 a b p (String c (String d rest)) Hp) as E.
  unfold pad2 in E. exact E.
Qed.

(** Only the text [strftime] renders reads as a date. *)
Lemma strftime_to_datetime (s : string) (t : Timestamp) :
  to_datetime s = Some t -> strftime t = s.
Proof.
  unfold to_datetime. intros H.
  repeat match type of H with
         | match ?x with _ => _ end = _ => destruct x eqn:?; try discriminate
         | (if ?x then _ else _) = _ => destruct x eqn:?; try discriminate
         | (let _ := _ in _) = _ => cbv zeta in H
         end.
  injection H as <-. unfold strftime. cbn [year month day].
  repeat match goal with
         | E : Ascii.eqb _ _ = true |- _ => apply Ascii.eqb_eq in E; subst
         end.
  erewrite pad4_number4 by eassumption.
  f_equal. f_equal. f_equal. f_equal. f_equal.
  erewrite pad2_number2 by eassumption.
  f_equal. f_equal. f_equal.
  erewrite pad2_number2 by eassumption. reflexivity.
Qed.

End DateText.

(** ** Running the job again *)

Section Rerun.

Local Open Scope string_scope.

(** [push_to_github] raises nothing to its caller. *)
Lemma push_never_raises (w : World) : outcome push_to_github w = Ok tt.
Proof.
  unfold outcome. rewrite push_to_github_eq.
  destruct (token_missing _); [reflexivity|].
  destruct (disk w); [|reflexivity].
  destruct (online w); [|reflexivity].
  destruct (github w) as [[c s]|]; reflexivity.
Qed.

(** C8 (the code departs from the claim).  On the five-column ledger of
    2024-01-02, with a provider that has the row of 2024-01-03 and nothing
    else, the first job of 2024-01-04 appends that row with nine fields.
    The second job of the same day reads the ledger again, skips the
    nine-field line as a bad line, asks the provider for the same window,
    receives the same row and appends it again: the ledger has changed. *)
Theorem second_run_appends_again :
  let w1 := after job later_run in
  let w2 := after job w1 in
  today w1 = today later_run
  /\ yahoo w1 = yahoo later_run
  /\ disk w1 = Some (ledger_jan_02 ++ [line_jan_03])%list
  /\ fetches w2 = [History "GLD" "2024-01-03" "2024-01-04";
                   History "GLD" "2024-01-03" "2024-01-04"]
  /\ kept_lines (ledger_jan_02 ++ [line_jan_03])%list = tl ledger_jan_02
  /\ disk w2 = Some (ledger_jan_02 ++ [line_jan_03; line_jan_03])%list
  /\ disk w2 <> disk w1.
Proof.
  cbv zeta. repeat split; try (vm_compute; reflexivity).
  intros H. vm_compute in H. discriminate H.
Qed.

(** C9 (the code departs from the claim).  The first run, without a ledger,
    creates a nine-column file.  On that file the next run of
    [update_csv_file] raises ValueError at line 48; the only handler of
    that block names ParserError, so the exception leaves
    [update_csv_file], and the job, for the scheduler loop of [main], which
    has no handler. *)
Theorem second_run_raises :
  let w1 := after job first_run in
  outcome job first_run = Ok tt
  /\ option_map (map (@length field)) (disk w1) = Some [9; 9]
  /\ load_existing [map FTxt written_columns;
                    persisted_line (Stamp day_2024_01_02) 190.0 191.5 189.25 190.75]
     = Raise ValueError
  /\ outcome update_csv_file w1 = Raise ValueError
  /\ outcome job w1 = Raise ValueError
  /\ puts (after job w1) = puts w1.
Proof.
  cbv zeta. repeat split; vm_compute; reflexivity.
Qed.

End Rerun.

(** ** The order of the ledger *)

Section LedgerOrder.

(** C4 (the code departs from the claim).  The provider has the row of
    2024-01-03 and answers every window with the rows dated in it.  The run
    of 2024-01-04 on the ledger of 2024-01-02 appends that row, with nine
    fields: the ledger it leaves has the dates 2024-01-02 and 2024-01-03,
    unique and strictly ascending.  The next run on that ledger skips the
    nine-field line when it reads the dates, so line 83 does not find
    2024-01-03 among them, and the row is appended again: the ledger now
    has the date 2024-01-03 twice and is no longer strictly ascending. *)
Theorem rerun_duplicates_date :
  let w1 := after update_csv_file window_run in
  let w2 := after update_csv_file w1 in
  disk w1 = Some appended_ledger
  /\ all_dates (tl appended_ledger) = Some [day_2024_01_02; day_2024_01_03]
  /\ ledger_sorted appended_ledger = true
  /\ NoDup [day_2024_01_02; day_2024_01_03]
  /\ yahoo w1 (call_number w1) "GLD" "2024-01-03" "2024-01-04"
     = Returns gld_2024_01_03
  /\ existing_dates appended_ledger = [Txt "2024-01-02"]
  /\ fetches w2 = [History "GLD" "2024-01-03" "2024-01-04";
                   History "GLD" "2024-01-03" "2024-01-04"]
  /\ exists f2,
       disk w2 = Some f2
       /\ all_dates (tl f2)
          = Some [day_2024_01_02; day_2024_01_03; day_2024_01_03]
       /\ ledger_sorted f2 = false
       /\ ~ NoDup [day_2024_01_02; day_2024_01_03; day_2024_01_03].
Proof.
  cbv zeta.
  split; [vm_compute; reflexivity|].
  split; [vm_compute; reflexivity|].
  split; [vm_compute; reflexivity|].
  split.
  { constructor; [intros [H|[]]; discriminate H|].
    constructor; [intros []|constructor]. }
  split; [vm_compute; reflexivity|].
  split; [vm_compute; reflexivity|].
  split; [vm_compute; reflexivity|].
  eexists. split; [vm_compute; reflexivity|].
  split; [vm_compute; reflexivity|].
  split; [vm_compute; reflexivity|].
  intros H. inversion H as [|x l Hn Hd]; subst.
  inversion Hd as [|y l' Hn' _]; subst.
  apply Hn'. now left.
Qed.

End LedgerOrder.

(** ** The retry wrapper and the fetcher *)

Section Retry.



Lemma call_number_history (t s e : string) (w : World) :
  call_number (emit (History t s e) w) = S (call_number w).
Proof. reflexivity. Qed.

Lemma repeat_app_cons {A} (x : A) (n : nat) (l : list A) :
  repeat x n ++ x :: l = repeat x (S n) ++ l.
Proof.
  induction n as [|n IH]; [reflexivity|].
  cbn [repeat app] in *. now rewrite IH.
Qed.

Lemma history_eq (t s e : string) (w : World) :
  history t s e w
  = match yahoo w (call_number w) t s e with
    | Returns df => (Ok df, emit (History t s e) w)
    | Fails => (Raise ConnectionError, emit (History t s e) w)
    end.
Proof.
  unfold history, call_number. destruct (yahoo w _ t s e); reflexivity.
Qed.

Lemma retry_loop_after_failures (t s e : string) (retries delay : nat)
    (df : Frame cell) (k : nat) :
  forall (r : nat) (w : World),
    k < r ->
    fails_next w k t s e ->
    yahoo w (call_number w + k) t s e = Returns df ->
    fst (retry_loop (history t s e) retries delay r w) = Ok (Some df)
    /\ fetches (snd (retry_loop (history t s e) retries delay r w))
       = repeat (History t s e) (S k) ++ fetches w
    /\ sleeps (snd (retry_loop (history t s e) retries delay r w))
       = repeat (Sleep delay) k ++ sleeps w
    /\ disk (snd (retry_loop (history t s e) retries delay r w)) = disk w
    /\ github (snd (retry_loop (history t s e) retries delay r w)) = github w.
Proof.
  induction k as [|k IH]; intros r w Hr Hf Hy; (destruct r as [|r]; [lia|]);
    cbn [retry_loop]; unfold try_except, bind; rewrite history_eq.
  - rewrite Nat.add_0_r in Hy. rewrite Hy. cbn. repeat split.
  - assert (H0 : yahoo w (call_number w) t s e = Fails)
      by (rewrite <- (Nat.add_0_r (call_number w)); apply Hf; lia).
    rewrite H0. unfold print, sleep. cbn [fst snd].
    set (w1 := emit (Sleep delay) (emit (Print _) (emit (History t s e) w))).
    assert (Hc : call_number w1 = S (call_number w)) by reflexivity.
    destruct (IH r w1) as (H1 & H2 & H3 & H4 & H5).
    + lia.
    + intros i Hi. rewrite Hc. change (yahoo w1) with (yahoo w).
      replace (S (call_number w) + i) with (call_number w + S i) by lia.
      apply Hf. lia.
    + rewrite Hc. change (yahoo w1) with (yahoo w).
      replace (S (call_number w) + k) with (call_number w + S k) by lia.
      exact Hy.
    + rewrite H1, H2, H3, H4, H5. repeat split.
      * change (fetches w1) with (History t s e :: fetches w).
        apply repeat_app_cons.
      * change (sleeps w1) with (Sleep delay :: sleeps w).
        apply repeat_app_cons.
Qed.

(** Applied to the provider call, [retry] stops at the first attempt that
    returns: when the provider raises at the next k calls and answers the
    one after, with k below the bound, the frame is returned after k + 1
    calls and k sleeps of the delay; nothing is written or published. *)
Theorem retry_returns_first_success (t s e : string) (retries delay k : nat)
    (df : Frame cell) (w : World) :
  k < retries ->
  fails_next w k t s e ->
  yahoo w (call_number w + k) t s e = Returns df ->
  let w' := after (retry (history t s e) retries delay) w in
  outcome (retry (history t s e) retries delay) w = Ok (Some df)
  /\ fetches w' = repeat (History t s e) (S k) ++ fetches w
  /\ sleeps w' = repeat (Sleep delay) k ++ sleeps w
  /\ disk w' = disk w /\ github w' = github w.
Proof.
  intros Hk Hf Hy. unfold outcome, after, retry.
  now apply retry_loop_after_failures.
Qed.

Lemma retry_loop_gives_up (t s e : string) (retries delay : nat) (r : nat) :
  forall (w : World),
    fails_next w r t s e ->
    fst (retry_loop (history t s e) retries delay r w) = Ok None
    /\ fetches (snd (retry_loop (history t s e) retries delay r w))
       = repeat (History t s e) r ++ fetches w
    /\ sleeps (snd (retry_loop (history t s e) retries delay r w))
       = repeat (Sleep delay) r ++ sleeps w.
Proof.
  induction r as [|r IH]; intros w Hf.
  - cbn. repeat split.
  - cbn [retry_loop]. unfold try_except, bind. rewrite history_eq.
    assert (H0 : yahoo w (call_number w) t s e = Fails)
      by (rewrite <- (Nat.add_0_r (call_number w)); apply Hf; lia).
    rewrite H0. unfold print, sleep. cbn [fst snd].
    set (w1 := emit (Sleep delay) (emit (Print _) (emit (History t s e) w))).
    assert (Hc : call_number w1 = S (call_number w)) by reflexivity.
    destruct (IH w1) as (H1 & H2 & H3).
    + intros i Hi. rewrite Hc. change (yahoo w1) with (yahoo w).
      replace (S (call_number w) + i) with (call_number w + S i) by lia.
      apply Hf. lia.
    + rewrite H1, H2, H3. repeat split.
      * change (fetches w1) with (History t s e :: fetches w).
        apply repeat_app_cons.
      * change (sleeps w1) with (Sleep delay :: sleeps w).
        apply repeat_app_cons.
Qed.

(** Applied to a provider call that raises at every attempt, [retry] makes
    exactly as many calls as its bound, sleeps the delay after each of
    them, the last included, and returns None. *)
Theorem retry_gives_up (t s e : string) (retries delay : nat) (w : World) :
  fails_next w retries t s e ->
  let w' := after (retry (history t s e) retries delay) w in
  outcome (retry (history t s e) retries delay) w = Ok None
  /\ fetches w' = repeat (History t s e) retries ++ fetches w
  /\ sleeps w' = repeat (Sleep delay) retries ++ sleeps w.
Proof.
  intros Hf. unfold outcome, after, retry. now apply retry_loop_gives_up.
Qed.

(** [fetch_data_from_yfinance] raises nothing: it calls the provider once,
    returns the frame when the provider answers, and turns an exception of
    the provider into None and one logged line; it writes nothing. *)
Theorem fetcher_never_raises (t s e : string) (w : World) :
  let w' := after (fetch_data_from_yfinance t s e) w in
  outcome (fetch_data_from_yfinance t s e) w
  = Ok (match yahoo w (call_number w) t s e with
        | Returns df => Some df
        | Fails => None
        end)
  /\ fetches w' = History t s e :: fetches w
  /\ sleeps w' = sleeps w
  /\ disk w' = disk w /\ github w' = github w.
Proof.
  unfold outcome, after, fetch_data_from_yfinance, try_except, bind, history,
    ret, print.
  fold (call_number w).
  destruct (yahoo w (call_number w) t s e); cbn; repeat split.
Qed.

(** Wrapping the fetcher in [retry] would retry nothing: the fetcher has
    already turned the provider's exception into None, so the first attempt
    returns, whether the provider answered or raised; one call is made and
    no sleep. *)
Theorem retry_of_fetcher_attempts_once (t s e : string) (retries delay : nat)
    (w : World) :
  0 < retries ->
  let w' := after (retry (fetch_data_from_yfinance t s e) retries delay) w in
  outcome (retry (fetch_data_from_yfinance t s e) retries delay) w
  = Ok (Some (match yahoo w (call_number w) t s e with
              | Returns df => Some df
              | Fails => None
              end))
  /\ fetches w' = History t s e :: fetches w
  /\ sleeps w' = sleeps w.
Proof.
  intros Hr. destruct retries as [|r]; [lia|].
  unfold outcome, after, retry. cbn [retry_loop].
  unfold fetch_data_from_yfinance, try_except, bind, history, ret, print.
  fold (call_number w).
  destruct (yahoo w (call_number w) t s e); cbn; repeat split.
Qed.

End Retry.

(** ** The edges of update_csv_file *)

Section UpdateEdges.

Lemma local_only_refl (w : World) : local_only w w.
Proof. repeat split. Qed.

Lemma processed_local (df : Frame cell) (ex : option (Frame unit)) (w : World) :
  fst (processed df ex w) = Ok tt /\ local_only w (snd (processed df ex w)).
Proof.
  unfold processed.
  repeat match goal with
         | |- context [match ?x with _ => _ end] => destruct x
         end; repeat split.
Qed.

Lemma fetch_and_process_local (s T : string) (ex : option (Frame unit))
    (w : World) :
  fst (fetch_and_process s T ex w) = Ok tt
  /\ local_only w (snd (fetch_and_process s T ex w)).
Proof.
  rewrite fetch_and_process_eq. cbv zeta.
  destruct (yahoo w _ _ _ _) as [|df]; [repeat split|].
  destruct (empty df); [repeat split|].
  destruct (processed_local df ex (emit (History "GLD" s T) w)) as [H1 H2].
  split; [exact H1|]. exact H2.
Qed.

(** Once the ledger has been read, [update_csv_file] raises nothing:
    whatever the provider does or returns and whatever the column
    processing raises, lines 64-96 return, having sent no GET or PUT,
    slept not at all and left the remote file as it was. *)
Theorem fetch_and_process_never_raises (start_date today_ : string)
    (existing_data : option (Frame unit)) (w : World) :
  outcome (fetch_and_process start_date today_ existing_data) w = Ok tt
  /\ local_only w (after (fetch_and_process start_date today_ existing_data) w).
Proof. apply fetch_and_process_local. Qed.

(** The update touches the ledger, the provider log and the console only. *)
Lemma update_csv_file_local (w : World) :
  local_only w (after update_csv_file w).
Proof.
  unfold after. rewrite update_csv_file_eq. cbv zeta.
  destruct (token_missing _); [repeat split|].
  destruct (disk w) as [f|]; [|apply fetch_and_process_local].
  destruct (load_existing f) as [[ex last]|e]; [|destruct e; repeat split].
  destruct (String.eqb _ _); [repeat split|].
  destruct (next_start last) as [s|e]; [|destruct e; repeat split].
  destruct (fetch_and_process_local s (strftime (today w)) (Some ex)
              (emit (Print ("Fetching new data starting from: " ++ s)) w))
    as [_ H].
  exact H.
Qed.

(** [update_csv_file] publishes nothing: on every path, raising or not, it
    sends no GET and no PUT, does not sleep, and leaves the token, the
    clock, the provider and the remote file as they were. *)
Theorem update_is_local (w : World) :
  local_only w (after update_csv_file w).
Proof. exact (update_csv_file_local w). Qed.

(** A ledger file the reader cannot use makes [update_csv_file] raise, the
    handler of line 60 naming ParserError only: EmptyDataError for a file
    without a line, ValueError for a header that has not five columns, and
    ValueError for a plain five-column file without a date, that is, one
    whose rows all have an empty date field (the maximum is NaT, which has
    no strftime).  Nothing is logged, fetched or written before the
    exception leaves the function. *)
Theorem update_raises_on_unreadable_ledger (w : World) (f : file) :
  token_missing (GITHUB_TOKEN w) = false ->
  disk w = Some f ->
  (header_and_body f = None ->
     update_csv_file w = (Raise EmptyDataError, w))
  /\ (header_and_body f <> None -> header_width f <> 5 ->
      update_csv_file w = (Raise ValueError, w))
  /\ (header_width f = 5 -> plain_ledger f = true ->
      ledger_dates f = [] ->
      update_csv_file w = (Raise ValueError, w)).
Proof.
  intros Ht Hd. rewrite update_csv_file_eq, Ht, Hd, load_existing_eq.
  unfold header_width. cbv zeta.
  destruct (header_and_body f) as [[h b]|].
  - split; [discriminate|]. split.
    + intros _ Hn. apply Nat.eqb_neq in Hn. now rewrite Hn.
    + intros H5 _ He. rewrite H5, He. reflexivity.
  - split; [reflexivity|]. split; [intros H; now destruct H | discriminate].
Qed.


(** With no ledger, or with a ledger of five columns, its first row no
    longer than the header, whose latest parseable date is today or
    earlier, [update_csv_file] returns: every exception that can arise from
    there on is caught. *)
Theorem update_returns_on_readable_ledger (w : World) :
  valid (today w) = true ->
  (disk w = None
   \/ exists f D,
        disk w = Some f /\ header_width f = 5 /\ first_row_fits f = true
        /\ latest (ledger_dates f) = Some D
        /\ (D = today w \/ ts_lt D (today w))) ->
  outcome update_csv_file w = Ok tt.
Proof.
  intros Hv H. unfold outcome. rewrite update_csv_file_eq. cbv zeta.
  destruct (token_missing _); [reflexivity|].
  destruct H as [Hd|(f & D & Hd & H5 & _ & HD & Hle)]; rewrite Hd.
  - apply fetch_and_process_local.
  - rewrite load_existing_eq. unfold header_width in H5.
    destruct (header_and_body f) as [[h b]|]; [|discriminate].
    rewrite H5, HD. cbn [Nat.eqb].
    destruct (String.eqb _ _) eqn:E; [reflexivity|].
    destruct Hle as [->|Hlt]; [now rewrite String.eqb_refl in E|].
    destruct (latest_spec _ _ HD) as [Hin _].
    assert (HvD : valid D = true) by (eapply dates_of_valid; exact Hin).
    destruct (add_one_day_defined D (today w) HvD Hv Hlt) as [D' HD'].
    rewrite (next_start_strftime D D' HvD HD').
    apply fetch_and_process_local.
Qed.

End UpdateEdges.

(** ** When the column processing succeeds *)

Section Processing.

Lemma series_mul_nums {A} (g : A -> cell) (l : list A) (k : float) :
  Forall (fun r => is_num (g r) = true) l ->
  series_mul (map g l) k
  = Ok (map (fun r => Num (PrimFloat.mul (num_of (g r)) k)) l).
Proof.
  induction 1 as [|a l Ha _ IH]; [reflexivity|].
  cbn [map series_mul]. destruct (g a); try discriminate.
  rewrite IH. reflexivity.
Qed.

Lemma dt_strftime_datetimes {A} (g : A -> cell) (l : list A) :
  Forall (fun r => is_datetime (g r) = true) l ->
  dt_strftime (map g l) = Ok (map (fun r => date_text (g r)) l).
Proof.
  induction 1 as [|a l Ha _ IH]; [reflexivity|].
  cbn [map dt_strftime]. destruct (g a); try discriminate;
    rewrite IH; reflexivity.
Qed.

Lemma priced_column {df : Frame cell} {name : string} {i : nat}
    (P : (cell * list cell) -> Prop) :
  position name (columns df) = Some i ->
  (forall r, P r -> is_num (column_cell df name r) = true) ->
  forall l, Forall P l ->
            Forall (fun r : cell * list cell => is_num (cell_at i (snd r)) = true) l.
Proof.
  intros Hp H l Hl. rewrite Forall_forall in *. intros r Hr.
  specialize (H r (Hl r Hr)). unfold column_cell in H. now rewrite Hp in H.
Qed.

(** Lines 72-79 on a frame indexed by "Date" that has the four price
    columns, every row with a datetime label and four numbers. *)
Lemma scale_and_relabel_complete (df : Frame cell) :
  index_name df = Some "Date" ->
  has_price_columns df ->
  Forall (priced df) (rows df) ->
  scale_and_relabel df = Ok (scaled_frame df).
Proof.
  intros Hn [ps Hps] Hp.
  unfold scale_and_relabel, getitem_list. rewrite Hps.
  apply positions_four in Hps.
  destruct Hps as (iO & iH & iL & iC & HO & HH & HL & HC & ->).
  cbn [rbind map].
  assert (FO := priced_column (priced df) HO
                  (fun r H => proj1 (proj2 H)) _ Hp).
  assert (FH := priced_column (priced df) HH
                  (fun r H => proj1 (proj2 (proj2 H))) _ Hp).
  assert (FL := priced_column (priced df) HL
                  (fun r H => proj1 (proj2 (proj2 (proj2 H)))) _ Hp).
  assert (FC := priced_column (priced df) HC
                  (fun r H => proj2 (proj2 (proj2 (proj2 H)))) _ Hp).
  assert (FD : Forall (fun r : cell * list cell => is_datetime (fst r) = true)
                 (rows df)).
  { rewrite Forall_forall in *. intros r Hr. exact (proj1 (Hp r Hr)). }
  erewrite getitem_map by reflexivity. cbn [rbind snd cell_at nth].
  rewrite (series_mul_nums _ _ _ FO). cbn [rbind].
  rewrite setitem_new_map by reflexivity. cbn [fst snd app].
  erewrite getitem_map by reflexivity. cbn [rbind snd cell_at nth].
  rewrite (series_mul_nums _ _ _ FH). cbn [rbind].
  rewrite setitem_new_map by reflexivity. cbn [fst snd app].
  erewrite getitem_map by reflexivity. cbn [rbind snd cell_at nth].
  rewrite (series_mul_nums _ _ _ FL). cbn [rbind].
  rewrite setitem_new_map by reflexivity. cbn [fst snd app].
  erewrite getitem_map by reflexivity. cbn [rbind snd cell_at nth].
  rewrite (series_mul_nums _ _ _ FC). cbn [rbind].
  rewrite setitem_new_map by reflexivity. cbn [fst snd app].
  rewrite reset_index_map, Hn. cbv zeta.
  change (existsb _ _) with false. cbn iota. cbn [rbind].
  erewrite getitem_map by reflexivity. cbn [rbind fst snd cell_at nth].
  rewrite (dt_strftime_datetimes (fun r : cell * list cell => fst r) _ FD).
  cbn [rbind].
  erewrite setitem_old_map by reflexivity. cbn [fst snd update_at].
  unfold scaled_frame. f_equal. f_equal.
  unfold scaled_cells, price, column_cell. rewrite HO, HH, HL, HC.
  apply map_ext_in. intros r Hr. f_equal. f_equal.
  rewrite Forall_forall in FO, FH, FL, FC.
  specialize (FO r Hr). specialize (FH r Hr).
  specialize (FL r Hr). specialize (FC r Hr).
  destruct (cell_at iO (snd r)); try discriminate.
  destruct (cell_at iH (snd r)); try discriminate.
  destruct (cell_at iL (snd r)); try discriminate.
  destruct (cell_at iC (snd r)); try discriminate.
  reflexivity.
Qed.

End Processing.

Section ProcessingExact.

Lemma scale_and_relabel_needs (df : Frame cell) (sel : Frame unit) :
  scale_and_relabel df = Ok sel ->
  index_name df = Some "Date" /\ has_price_columns df.
Proof.
  unfold scale_and_relabel, getitem_list, has_price_columns.
  destruct (positions _ (columns df)) as [ps|] eqn:Hps; [|discriminate].
  intros H. split; [|now exists ps]. revert H.
  apply positions_four in Hps.
  destruct Hps as (iO & iH & iL & iC & HO & HH & HL & HC & ->).
  cbn [rbind map].
  erewrite getitem_map by reflexivity. cbn [rbind snd cell_at nth].
  destruct (series_mul _ scaling_factor) as [o|e] eqn:Ho; [|discriminate].
  apply series_mul_map in Ho. destruct Ho as [-> _].
  cbn [rbind]. rewrite setitem_new_map by reflexivity. cbn [fst snd app].
  erewrite getitem_map by reflexivity. cbn [rbind snd cell_at nth].
  destruct (series_mul _ scaling_factor) as [h|e] eqn:Hh; [|discriminate].
  apply series_mul_map in Hh. destruct Hh as [-> _].
  cbn [rbind]. rewrite setitem_new_map by reflexivity. cbn [fst snd app].
  erewrite getitem_map by reflexivity. cbn [rbind snd cell_at nth].
  destruct (series_mul _ scaling_factor) as [l|e] eqn:Hl; [|discriminate].
  apply series_mul_map in Hl. destruct Hl as [-> _].
  cbn [rbind]. rewrite setitem_new_map by reflexivity. cbn [fst snd app].
  erewrite getitem_map by reflexivity. cbn [rbind snd cell_at nth].
  destruct (series_mul _ scaling_factor) as [c|e] eqn:Hc; [|discriminate].
  apply series_mul_map in Hc. destruct Hc as [-> _].
  cbn [rbind]. rewrite setitem_new_map by reflexivity. cbn [fst snd app].
  rewrite reset_index_map. cbv zeta.
  destruct (index_name df) as [name|].
  2:{ cbn [existsb]. intros H. vm_compute in H. discriminate. }
  destruct (existsb _ _) eqn:Hex; [discriminate|].
  cbn [rbind].
  destruct (String.eqb "Date" name) eqn:Hname.
  - apply String.eqb_eq in Hname. now subst name.
  - unfold getitem. cbn [columns rows position]. rewrite Hname.
    intros H. vm_compute in H. discriminate.
Qed.

(** Lines 72-79 raise nothing exactly when the provider's frame is indexed
    by "Date", has the columns Open, High, Low and Close, and every row
    has a datetime label and a number in each of the four; the frame they
    make then has nine columns and one row per provider row, in the
    provider's order.  Otherwise they raise (a missing column, an index
    with another name, a value that is not a number). *)
Theorem scale_and_relabel_iff (df : Frame cell) (sel : Frame unit) :
  scale_and_relabel df = Ok sel <->
  index_name df = Some "Date" /\ has_price_columns df
  /\ Forall (priced df) (rows df) /\ sel = scaled_frame df.
Proof.
  split.
  - intros H.
    destruct (scale_and_relabel_needs df sel H) as [Hn Hc].
    destruct (scale_and_relabel_ok df sel H) as (_ & _ & Hp).
    pose proof (scale_and_relabel_complete df Hn Hc Hp) as E.
    rewrite H in E. injection E as ->. repeat split; assumption.
  - intros (Hn & Hc & Hp & ->). now apply scale_and_relabel_complete.
Qed.

Lemma filter_map_comm {A B} (g : A -> B) (p : B -> bool) (l : list A) :
  filter p (map g l) = map g (filter (fun x => p (g x)) l).
Proof.
  induction l as [|a l IH]; [reflexivity|].
  cbn [map filter]. destruct (p (g a)); cbn [map]; now rewrite IH.
Qed.

Lemma has_price_columns_not_empty (df : Frame cell) :
  has_price_columns df -> rows df <> [] -> empty df = false.
Proof.
  intros [ps H] Hr. unfold empty.
  destruct (rows df); [contradiction|].
  destruct (columns df); [discriminate H | reflexivity].
Qed.

(** The lines made of the provider rows [rs]. *)
Lemma to_csv_scaled (df : Frame cell) :
  to_csv (scaled_frame df) true
  = map FTxt written_columns
      :: map (fun r => map render (scaled_cells df r)) (rows df).
Proof. unfold to_csv, scaled_frame. cbn [columns rows app]. now rewrite map_map. Qed.

(** With no ledger, a run whose provider answers with a frame lines 72-79
    accept creates the file with the nine-column header followed by one
    line per provider row, none left out, in the provider's order. *)
Theorem first_run_writes_every_row (w : World) (df : Frame cell) :
  token_missing (GITHUB_TOKEN w) = false ->
  disk w = None ->
  yahoo w (call_number w) "GLD" "2020-01-01" (strftime (today w)) = Returns df ->
  index_name df = Some "Date" -> has_price_columns df ->
  Forall (priced df) (rows df) -> rows df <> [] ->
  outcome update_csv_file w = Ok tt
  /\ disk (after update_csv_file w)
     = Some (map FTxt written_columns
               :: map (fun r => map render (scaled_cells df r)) (rows df)).
Proof.
  intros Ht Hd Hy Hn Hc Hp Hr. unfold outcome, after.
  rewrite update_csv_file_eq, Ht, Hd. cbv zeta.
  rewrite fetch_and_process_eq. cbv zeta. rewrite Hy.
  rewrite (has_price_columns_not_empty df Hc Hr).
  unfold processed. rewrite (scale_and_relabel_complete df Hn Hc Hp).
  rewrite disk_emit, Hd.
  assert (He : empty (scaled_frame df) = false).
  { unfold empty, scaled_frame. cbn [rows columns].
    destruct (rows df); [contradiction | reflexivity]. }
  rewrite He. cbn [fst snd]. split; [reflexivity|].
  cbn [disk emit set_disk]. now rewrite to_csv_scaled.
Qed.

Lemma new_rows_scaled (f : file) (df : Frame cell) :
  map (fun r : unit * list cell => map render (snd r)) (new_rows f (scaled_frame df))
  = map (fun r => map render (scaled_cells df r)) (filter (kept_row f) (rows df)).
Proof.
  unfold new_rows, scaled_frame. cbn [rows].
  rewrite filter_map_comm, map_map. reflexivity.
Qed.

(** On a plain ledger of five columns whose latest date D is before
    today, a run whose provider answers the window from D + 1 with a frame lines 72-79
    accept appends exactly the provider rows whose date text is not among
    the dates read, none left out, in the provider's order, each as a
    nine-field line; when there is no such row the ledger is not
    touched. *)
Theorem append_writes_every_new_row (w : World) (f : file) (D D' : Timestamp)
    (df : Frame cell) :
  token_missing (GITHUB_TOKEN w) = false ->
  plain_day (today w) = true ->
  disk w = Some f -> header_width f = 5 -> plain_ledger f = true ->
  latest (ledger_dates f) = Some D -> ts_lt D (today w) ->
  add_one_day D = Some D' ->
  yahoo w (call_number w) "GLD" (strftime D') (strftime (today w)) = Returns df ->
  index_name df = Some "Date" -> has_price_columns df ->
  Forall (priced df) (rows df) -> rows df <> [] ->
  outcome update_csv_file w = Ok tt
  /\ disk (after update_csv_file w)
     = Some (f ++ map (fun r => map render (scaled_cells df r))
                    (filter (kept_row f) (rows df))).
Proof.
  intros Ht Hv Hd H5 _ HD Hlt HD' Hy Hn Hc Hp Hr. unfold outcome, after.
  apply plain_day_valid in Hv.
  rewrite update_csv_file_eq, Ht, Hd, load_existing_eq. cbv zeta.
  unfold header_width in H5.
  destruct (header_and_body f) as [[h b]|]; [|discriminate].
  rewrite H5, HD. cbn [Nat.eqb].
  destruct (latest_spec _ _ HD) as [Hin _].
  assert (HvD : valid D = true) by (eapply dates_of_valid; exact Hin).
  assert (Hne : String.eqb (strftime D) (strftime (today w)) = false).
  { apply String.eqb_neq. intros E.
    apply strftime_inj in E; [|assumption..]. subst D.
    now apply ts_lt_irrefl in Hlt. }
  rewrite Hne, (next_start_strftime D D' HvD HD').
  rewrite fetch_and_process_eq. cbv zeta.
  change (call_number (emit _ w)) with (call_number w).
  change (yahoo (emit _ w)) with (yahoo w).
  rewrite Hy, (has_price_columns_not_empty df Hc Hr).
  unfold processed. rewrite (scale_and_relabel_complete df Hn Hc Hp).
  rewrite !disk_emit, Hd.
  rewrite (select_new_eq (scaled_frame df) f eq_refl).
  rewrite <- new_rows_scaled.
  destruct (empty _) eqn:He.
  - cbn [fst snd]. split; [reflexivity|].
    rewrite !disk_emit, Hd.
    unfold empty in He. cbn [rows columns] in He.
    destruct (new_rows f (scaled_frame df)); [|discriminate He].
    cbn [map]. now rewrite app_nil_r.
  - cbn [fst snd]. split; reflexivity.
Qed.

End ProcessingExact.

(** ** What the next run reads *)

Section NextRun.

Lemma written_columns_header (sel : Frame unit) :
  columns sel = written_columns ->
  header_and_body (to_csv sel true)
  = Some (map FTxt written_columns,
          filter (fun l => negb (blank l))
            (map (fun r => map render (snd r)) (rows sel))).
Proof.
  intros Hc. unfold header_and_body, to_csv. rewrite Hc. reflexivity.
Qed.

(** A file [update_csv_file] has created is a file [update_csv_file]
    cannot read: the created header has nine columns, so on every later
    run with the token set line 48 raises ValueError, which leaves
    [update_csv_file] and the job before anything is fetched, written or
    published. *)
Theorem created_file_is_rejected (w w2 : World) (f' : file) :
  disk w = None ->
  disk (after update_csv_file w) = Some f' ->
  token_missing (GITHUB_TOKEN w2) = false ->
  disk w2 = Some f' ->
  header_width f' = 9
  /\ update_csv_file w2 = (Raise ValueError, w2)
  /\ job w2 = (Raise ValueError, w2).
Proof.
  intros Hd Hf Ht Hd2.
  assert (Hw : header_width f' = 9).
  { destruct (update_disk w) as [H|[(s & df & sel & _ & _ & Hs & H & _)
                                   |(f & s & df & sel & Hf0 & _)]].
    - cbv zeta in H. congruence.
    - cbv zeta in H. rewrite Hf in H. injection H as ->.
      destruct (scale_and_relabel_ok df sel Hs) as (Hc & _ & _).
      unfold header_width. rewrite (written_columns_header sel Hc).
      reflexivity.
    - congruence. }
  assert (E : update_csv_file w2 = (Raise ValueError, w2)).
  { rewrite update_csv_file_eq, Ht, Hd2, load_existing_eq.
    unfold header_width in Hw.
    destruct (header_and_body f') as [[h b]|]; [|discriminate].
    rewrite Hw. reflexivity. }
  split; [exact Hw|]. split; [exact E|].
  rewrite job_eq, E. reflexivity.
Qed.

Lemma filter_app_nonblank (f : file) (extra : list line) :
  (forall l, In l extra -> length l = 9) ->
  filter (fun l => negb (blank l)) (f ++ extra)
  = filter (fun l => negb (blank l)) f ++ extra.
Proof.
  intros H. rewrite filter_app. f_equal.
  induction extra as [|l extra IH]; [reflexivity|].
  cbn [filter]. assert (Hl := H l (or_introl eq_refl)).
  destruct l; [discriminate Hl|]. cbn [blank negb]. f_equal.
  apply IH. intros x Hx. apply H. now right.
Qed.

Lemma filter_wide {A} (n : nat) (extra : list (list A)) :
  n < 9 ->
  (forall l, In l extra -> length l = 9) ->
  filter (fun l => length l <=? n) extra = [].
Proof.
  intros Hn H. induction extra as [|l extra IH]; [reflexivity|].
  cbn [filter]. rewrite (H l (or_introl eq_refl)).
  destruct (Nat.leb_spec 9 n); [lia|].
  apply IH. intros x Hx. apply H. now right.
Qed.

Lemma update_keeps_undated (w : World) (f : file) :
  disk w = Some f -> latest (ledger_dates f) = None ->
  disk (after update_csv_file w) = Some f.
Proof.
  intros Hd HL. unfold after. rewrite update_csv_file_eq. cbv zeta.
  destruct (token_missing _); [exact Hd|].
  rewrite Hd, load_existing_eq, HL.
  destruct (header_and_body f) as [[h b]|]; [|exact Hd].
  destruct (length h =? 5); exact Hd.
Qed.

Lemma first_row_fits_app (f : file) (extra : list line) :
  (forall l, In l extra -> length l = 9) ->
  ledger_dates f <> [] ->
  first_row_fits (f ++ extra) = first_row_fits f.
Proof.
  intros Hx Hne. unfold first_row_fits.
  unfold ledger_dates, kept_lines in Hne. unfold header_and_body in *.
  rewrite (filter_app_nonblank f _ Hx).
  destruct (filter (fun l => negb (blank l)) f) as [|h [|l b]].
  - now destruct Hne.
  - now destruct Hne.
  - reflexivity.
Qed.

(** The rows a run appends are not read by the next run: they have nine
    fields under a five-column header, so the reader skips them.  The
    ledger a run leaves therefore reads exactly as the ledger it found:
    the same dates, the same last date, the same outcome of lines 47-54;
    the last date the script sees never advances.  The appended rows come
    after the rows that were there, so the first row still fits the
    header. *)
Theorem appended_rows_are_not_read_back (w : World) (f f' : file) :
  disk w = Some f -> first_row_fits f = true ->
  disk (after update_csv_file w) = Some f' ->
  first_row_fits f' = true
  /\ kept_lines f' = kept_lines f
  /\ ledger_dates f' = ledger_dates f
  /\ load_existing f' = load_existing f.
Proof.
  intros Hd Hfit Hf.
  destruct (latest (ledger_dates f)) as [D|] eqn:HL.
  2:{ rewrite (update_keeps_undated w f Hd HL) in Hf. injection Hf as <-.
      now repeat split. }
  assert (Hne : ledger_dates f <> []) by (intros E; rewrite E in HL; discriminate HL).
  destruct (update_disk w) as [H|[(s & df & sel & Hn & _)
                                 |(f0 & s & df & sel & Hf0 & _ & Hs & H5 & H & _)]].
  - cbv zeta in H. rewrite H, Hd in Hf. injection Hf as <-. now repeat split.
  - congruence.
  - rewrite Hd in Hf0. injection Hf0 as <-.
    rewrite Hf in H. injection H as ->.
    set (extra := map (fun r : unit * list cell => map render (snd r))
                    (new_rows f sel)) in *.
    assert (Hx : forall l, In l extra -> length l = 9).
    { intros l Hl.
      assert (Hsub : forall r, In r (new_rows f sel) -> In r (rows sel)).
      { intros r Hr. unfold new_rows in Hr. apply filter_In in Hr. tauto. }
      destruct (persisted_line_of_row df sel _ l Hs Hsub Hl)
        as (r & o & h & lo & c & _ & _ & _ & _ & _ & ->).
      reflexivity. }
    assert (K : kept_lines (f ++ extra) = kept_lines f
                /\ header_width (f ++ extra) = header_width f).
    { unfold kept_lines, header_width, header_and_body in *.
      rewrite (filter_app_nonblank f _ Hx).
      destruct (filter (fun l => negb (blank l)) f) as [|h b]; [discriminate H5|].
      cbn [app]. split; [|reflexivity].
      rewrite filter_app.
      etransitivity; [|apply app_nil_r]. f_equal.
      apply (filter_wide (length h) extra); [lia | exact Hx]. }
    destruct K as [K1 K2].
    assert (L : ledger_dates (f ++ extra) = ledger_dates f)
      by (unfold ledger_dates; now rewrite K1).
    split; [now rewrite (first_row_fits_app f extra Hx Hne)|].
    split; [exact K1|]. split; [exact L|].
    rewrite !load_existing_eq, L. unfold existing_frame. rewrite K1.
    unfold header_width in K2, H5.
    destruct (header_and_body (f ++ extra)) as [[h' b']|],
             (header_and_body f) as [[h b]|]; try discriminate H5.
    + now rewrite K2.
    + rewrite <- K2 in H5. discriminate H5.
Qed.

Lemma filter_none {A} (p : A -> bool) (l : list A) :
  (forall x, In x l -> p x = false) -> filter p l = [].
Proof.
  induction l as [|a l IH]; intros H; [reflexivity|].
  cbn [filter]. rewrite (H a (or_introl eq_refl)).
  apply IH. intros x Hx. apply H. now right.
Qed.

(** When every row the provider returns is dated by a day a plain ledger
    already shows to the reader, nothing is written, whatever else the rows
    hold (lines 83 and 87-94). *)
Theorem known_dates_are_not_written (w : World) (f : file) :
  disk w = Some f -> plain_ledger f = true ->
  (forall start df r,
     yahoo w (call_number w) "GLD" start (strftime (today w)) = Returns df ->
     In r (rows df) ->
     exists t, fst r = Stamp t /\ In t (ledger_dates f)) ->
  disk (after update_csv_file w) = Some f.
Proof.
  intros Hd _ Hk.
  destruct (update_disk w) as [H|[(s & df & sel & Hn & _)
                                 |(f0 & s & df & sel & Hf0 & Hy & Hs & _ & H & _)]].
  - cbv zeta in H. now rewrite H.
  - congruence.
  - rewrite Hd in Hf0. injection Hf0 as <-. rewrite H.
    destruct (scale_and_relabel_ok df sel Hs) as (_ & Hrows & _).
    assert (E : new_rows f sel = []).
    { unfold new_rows. apply filter_none. intros x Hx.
      rewrite Hrows in Hx. apply in_map_iff in Hx.
      destruct Hx as (r & <- & Hr).
      destruct (Hk s df r Hy Hr) as (t & Ht & Hin).
      unfold scaled_cells. cbn [snd cell_at nth]. rewrite Ht.
      cbn [date_text]. apply negb_false_iff, existsb_exists.
      exists (Txt (strftime t)). split.
      - exact (in_map (fun x => Txt (strftime x)) _ t Hin).
      - cbn [cell_eqb]. apply String.eqb_refl. }
    rewrite E. cbn [map]. now rewrite app_nil_r.
Qed.

End NextRun.

(** ** The edges of push_to_github *)

Section PushEdges.

(** The effects of one publication. *)
Lemma push_to_github_contained (w : World) :
  let w' := after push_to_github w in
  outcome push_to_github w = Ok tt
  /\ disk w' = disk w /\ fetches w' = fetches w /\ sleeps w' = sleeps w
  /\ ((puts w' = puts w /\ github w' = github w)
      \/ exists f c s,
           disk w = Some f /\ github w = Some (c, s)
           /\ gets w' = HttpGet :: gets w
           /\ puts w' = HttpPut (mkPayload (commit_message w) f (Some s)) :: puts w
           /\ github w' = Some (f, S s)).
Proof.
  cbv zeta. unfold outcome, after. rewrite push_to_github_eq.
  destruct (token_missing _);
    [repeat (split; [reflexivity|]); left; split; reflexivity|].
  destruct (disk w) as [f|] eqn:Hd;
    [|repeat (split; [first [reflexivity | assumption]|]); left; split;
      reflexivity].
  destruct (online w);
    [|repeat (split; [first [reflexivity | assumption]|]); left; split;
      reflexivity].
  destruct (github w) as [[c s]|] eqn:Hg;
    [|repeat (split; [first [reflexivity | assumption]|]); left; split;
      first [reflexivity | assumption]].
  repeat (split; [first [reflexivity | assumption]|]). right. exists f, c, s.
  repeat (split; [reflexivity|]). reflexivity.
Qed.


(** Without the token, or without the ledger file, [push_to_github] makes
    no network call at all: the missing file is found (line 106) before
    the GET of line 111. *)
Theorem push_needs_token_and_file (w : World) :
  token_missing (GITHUB_TOKEN w) = true \/ disk w = None ->
  let w' := after push_to_github w in
  gets w' = gets w /\ puts w' = puts w /\ github w' = github w.
Proof.
  intros H. cbv zeta. unfold after. rewrite push_to_github_eq.
  destruct (token_missing _); [repeat split|].
  destruct H as [H|H]; [discriminate|]. rewrite H. repeat split.
Qed.

(** When the API cannot be reached the exception of the GET is caught: no
    PUT follows and the remote file is as it was. *)
Theorem push_offline (w : World) :
  online w = false ->
  let w' := after push_to_github w in
  outcome push_to_github w = Ok tt
  /\ puts w' = puts w /\ github w' = github w.
Proof.
  intros Ho. cbv zeta. unfold outcome, after. rewrite push_to_github_eq, Ho.
  destruct (token_missing _); [repeat split|].
  destruct (disk w); repeat split.
Qed.


End PushEdges.

(** ** The job and the loop of main *)

Section Loop.

Lemma job_outside (w : World) :
  (fetches (after job w) = fetches w
   \/ exists s, fetches (after job w)
                = History "GLD" s (strftime (today w)) :: fetches w)
  /\ sleeps (after job w) = sleeps w
  /\ today (after job w) = today w.
Proof.
  unfold after. rewrite job_eq.
  pose proof (update_fetches w) as Hf.
  pose proof (update_csv_file_local w) as (_ & Hday & _ & _ & _ & _ & _ & Hs).
  unfold after in *.
  destruct (update_csv_file w) as [[[]|e] w1]; cbn [snd] in *.
  - destruct (push_to_github_contained w1) as (_ & _ & Hpf & Hps & _).
    cbv zeta in *. unfold after in *.
    rewrite Hpf, Hps. repeat split; try assumption.
    pose proof (push_to_github_eq w1) as E.
    destruct (token_missing _), (disk w1), (online w1), (github w1) as [[? ?]|];
      rewrite E; cbn; assumption.
  - repeat split; assumption.
Qed.

(** Without the token a tick does nothing: the job returns having called
    neither the provider nor the API, with the ledger and the remote file
    as they were. *)
Theorem job_without_token (w : World) :
  token_missing (GITHUB_TOKEN w) = true ->
  outcome job w = Ok tt
  /\ fetches (after job w) = fetches w
  /\ gets (after job w) = gets w /\ puts (after job w) = puts w
  /\ disk (after job w) = disk w /\ github (after job w) = github w.
Proof.
  intros Ht. unfold outcome, after.
  rewrite job_eq, update_csv_file_eq, Ht, push_to_github_eq.
  cbn [GITHUB_TOKEN emit]. rewrite Ht. repeat split.
Qed.


Lemma main_loop_raise (ps1 : list poll) (p : poll) (ps2 : list poll)
    (e : exn) :
  forall w w1,
    main_loop ps1 w = (Ok tt, w1) ->
    due p = true ->
    outcome job (set_today (now p) w1) = Raise e ->
    main_loop (ps1 ++ p :: ps2) w
    = (Raise e, after job (set_today (now p) w1)).
Proof.
  induction ps1 as [|q ps1 IH]; intros w w1 H Hp He.
  - cbn in H. injection H as <-. cbn [app main_loop].
    unfold bind, run_pending, outcome, after in *. rewrite Hp.
    destruct (job (set_today (now p) w)) as [[[]|e'] w2]; cbn [fst snd] in *;
      [discriminate | congruence].
  - cbn [app main_loop] in *. unfold bind in *.
    destruct (run_pending q w) as [[[]|e'] w2]; [|discriminate].
    unfold sleep in *. now apply IH.
Qed.

(** An exception of the job ends [main]: the loop has no handler, so the
    pass in which a due job raises is the last one; the exception leaves
    [main], no sleep follows and no later poll is made, whatever the polls
    that would have come. *)
Theorem main_stops_at_exception (ps1 : list poll) (p : poll)
    (ps2 : list poll) (e : exn) (w w1 : World) :
  main ps1 w = (Ok tt, w1) ->
  due p = true ->
  outcome job (set_today (now p) w1) = Raise e ->
  main (ps1 ++ p :: ps2) w = (Raise e, after job (set_today (now p) w1)).
Proof.
  unfold main, bind, print. intros H Hp He.
  now apply main_loop_raise.
Qed.

Lemma main_loop_bounds (ps : list poll) :
  forall w,
    length (fetches (snd (main_loop ps w)))
    <= length (fetches w) + due_count ps
    /\ exists k,
         k <= length ps
         /\ sleeps (snd (main_loop ps w)) = repeat (Sleep 1) k ++ sleeps w
         /\ (fst (main_loop ps w) = Ok tt -> k = length ps).
Proof.
  induction ps as [|p ps IH]; intros w.
  - cbn [main_loop]. unfold ret, due_count. cbn [fst snd filter length].
    split; [lia|]. exists 0. split; [lia|]. split; [reflexivity|].
    intros _. reflexivity.
  - cbn [main_loop]. unfold bind, run_pending, due_count.
    cbn [filter length].
    destruct (due p) eqn:Hp.
    + destruct (job_outside (set_today (now p) w)) as (Hf & Hs & _).
      unfold after in *.
      destruct (job (set_today (now p) w)) as [[[]|e] w1]; cbn [fst snd] in *.
      * unfold sleep.
        destruct (IH (emit (Sleep 1) w1)) as (B & k & Hk & Hsl & Hok).
        change (fetches (emit (Sleep 1) w1)) with (fetches w1) in B.
        change (sleeps (emit (Sleep 1) w1)) with (Sleep 1 :: sleeps w1) in Hsl.
        change (fetches (set_today (now p) w)) with (fetches w) in Hf.
        change (sleeps (set_today (now p) w)) with (sleeps w) in Hs.
        split.
        -- unfold due_count in B. cbn [length].
           destruct Hf as [Hf|[s Hf]]; rewrite Hf in B; cbn [length] in B; lia.
        -- exists (S k). split; [cbn [length]; lia|]. split.
           ++ rewrite Hsl, Hs. apply repeat_app_cons.
           ++ intros H. cbn [length]. f_equal. now apply Hok.
      * change (fetches (set_today (now p) w)) with (fetches w) in Hf.
        change (sleeps (set_today (now p) w)) with (sleeps w) in Hs.
        split.
        -- cbn [length]. destruct Hf as [Hf|[s Hf]]; rewrite Hf; cbn [length]; lia.
        -- exists 0. split; [lia|]. split; [exact Hs | discriminate].
    + unfold sleep. cbn [fst snd].
      destruct (IH (emit (Sleep 1) (set_today (now p) w))) as (B & k & Hk & Hsl & Hok).
      change (fetches (emit (Sleep 1) (set_today (now p) w))) with (fetches w) in B.
      change (sleeps (emit (Sleep 1) (set_today (now p) w)))
        with (Sleep 1 :: sleeps w) in Hsl.
      split; [exact B|].
      exists (S k). split; [cbn [length]; lia|]. split.
      * rewrite Hsl. apply repeat_app_cons.
      * intros H. cbn [length]. f_equal. now apply Hok.
Qed.

(** [main] calls the provider at most once per due poll; it sleeps one
    second after every pass it completes and at no other moment, so that
    passes that all return leave as many one-second sleeps as polls. *)
Theorem main_is_paced (ps : list poll) (w : World) :
  length (fetches (after (main ps) w)) <= length (fetches w) + due_count ps
  /\ exists k,
       k <= length ps
       /\ sleeps (after (main ps) w) = repeat (Sleep 1) k ++ sleeps w
       /\ (outcome (main ps) w = Ok tt -> k = length ps).
Proof.
  unfold after, outcome, main, bind, print.
  exact (main_loop_bounds ps (emit (Print _) w)).
Qed.

End Loop.

(** ** The start of the window *)

Section WindowStart.

(** Lines 54-65.  On a plain ledger of five columns whose latest date D is
    earlier than today, the run asks the provider for the window that
    starts on the calendar day after D: a plain day, later than every date
    read, with no day between D and it. *)
Theorem start_follows_last_date (w : World) (f : file) (D : Timestamp) :
  token_missing (GITHUB_TOKEN w) = false ->
  plain_day (today w) = true ->
  disk w = Some f -> header_width f = 5 -> plain_ledger f = true ->
  latest (ledger_dates f) = Some D -> ts_lt D (today w) ->
  exists D',
    add_one_day D = Some D' /\ plain_day D' = true
    /\ (forall d, In d (ledger_dates f) -> ts_lt d D')
    /\ (forall x, valid x = true -> ts_lt D x -> x = D' \/ ts_lt D' x)
    /\ fetches (after update_csv_file w)
       = History "GLD" (strftime D') (strftime (today w)) :: fetches w.
Proof.
  intros Ht Hp Hd H5 Hf HD Hlt.
  pose proof (plain_day_valid _ Hp) as Hv.
  destruct (latest_spec _ _ HD) as [Hin Hmax].
  pose proof (plain_ledger_dates f D Hf Hin) as HpD.
  pose proof (plain_day_valid _ HpD) as HvD.
  destruct (add_one_day_defined D (today w) HvD Hv Hlt) as [D' HD'].
  destruct (add_one_day_next D D' HvD HD') as (Hv' & HltD & Hnext).
  exists D'. split; [exact HD'|]. split; [|split; [|split; [exact Hnext|]]].
  - destruct (Hnext (today w) Hv Hlt) as [E|Hlt'].
    + now rewrite <- E.
    + unfold plain_day in *. rewrite Hv'. cbn [andb].
      apply andb_true_iff in Hp, HpD. destruct Hp as [Hp1 Hp2], HpD as [HD1 HD2].
      apply andb_true_iff in Hp1, HD1. destruct Hp1 as [_ Hp1], HD1 as [_ HD1].
      unfold ts_lt, ts_ltb in HltD, Hlt'.
      apply andb_true_iff. split; lia.
  - intros d Hd'. destruct (Hmax d Hd') as [->|Hd'']; [exact HltD|].
    eapply ts_lt_trans; eassumption.
  - unfold after. rewrite update_csv_file_eq. cbv zeta.
    rewrite Ht, Hd, load_existing_eq. unfold header_width in H5.
    destruct (header_and_body f) as [[h b]|]; [|discriminate H5].
    rewrite H5, HD. cbn [Nat.eqb].
    assert (Hne : String.eqb (strftime D) (strftime (today w)) = false).
    { apply String.eqb_neq. intros E.
      apply strftime_inj in E; [|assumption..]. subst D.
      now apply ts_lt_irrefl in Hlt. }
    rewrite Hne, (next_start_strftime D D' HvD HD').
    now rewrite fetch_and_process_fetches, fetches_print.
Qed.

End WindowStart.

(** ** Instances *)

Section Instances.

Lemma retry_returns_first_success_witness :
  outcome (retry (history "GLD" "2020-01-01" "2024-01-03") 3 5) flaky_run
  = Ok (Some gld_2024_01_02).
Proof.
  assert (Hf : fails_next flaky_run 1 "GLD" "2020-01-01" "2024-01-03").
  { intros i Hi. assert (i = 0) by lia. subst i. reflexivity. }
  assert (Hk : 1 < 3) by lia.
  exact (proj1 (retry_returns_first_success "GLD" "2020-01-01" "2024-01-03"
                  3 5 1 gld_2024_01_02 flaky_run Hk Hf eq_refl)).
Defined.

Lemma retry_gives_up_witness :
  outcome (retry (history "GLD" "2020-01-01" "2024-01-03") 3 5) down_run
  = Ok None.
Proof.
  assert (Hf : fails_next down_run 3 "GLD" "2020-01-01" "2024-01-03").
  { intros i Hi. reflexivity. }
  exact (proj1 (retry_gives_up "GLD" "2020-01-01" "2024-01-03" 3 5 down_run Hf)).
Defined.

Lemma retry_of_fetcher_attempts_once_witness :
  fetches (after (retry (fetch_data_from_yfinance "GLD" "2020-01-01" "2024-01-03")
                    3 5) down_run)
  = [History "GLD" "2020-01-01" "2024-01-03"].
Proof.
  assert (Hr : 0 < 3) by lia.
  exact (proj1 (proj2 (retry_of_fetcher_attempts_once
                         "GLD" "2020-01-01" "2024-01-03" 3 5 down_run Hr))).
Defined.

Lemma update_raises_on_unreadable_ledger_witness :
  update_csv_file empty_file_run = (Raise EmptyDataError, empty_file_run)
  /\ update_csv_file narrow_run = (Raise ValueError, narrow_run)
  /\ update_csv_file header_only_run = (Raise ValueError, header_only_run)
  /\ update_csv_file undated_run = (Raise ValueError, undated_run).
Proof.
  split; [|split; [|split]].
  - exact (proj1 (update_raises_on_unreadable_ledger empty_file_run []
                    eq_refl eq_refl) eq_refl).
  - apply (proj1 (proj2 (update_raises_on_unreadable_ledger narrow_run
                           narrow_ledger eq_refl eq_refl))).
    + discriminate.
    + vm_compute. discriminate.
  - exact (proj2 (proj2 (update_raises_on_unreadable_ledger header_only_run
                           [map FTxt schema] eq_refl eq_refl))
             eq_refl eq_refl eq_refl).
  - exact (proj2 (proj2 (update_raises_on_unreadable_ledger undated_run
                           undated_ledger eq_refl eq_refl))
             eq_refl eq_refl eq_refl).
Defined.

Lemma update_returns_on_readable_ledger_witness :
  outcome update_csv_file later_run = Ok tt.
Proof.
  apply (update_returns_on_readable_ledger later_run eq_refl).
  right. exists ledger_jan_02, day_2024_01_02.
  repeat split. right. reflexivity.
Defined.

Lemma gld_2024_01_02_priced :
  Forall (priced gld_2024_01_02) (rows gld_2024_01_02).
Proof. repeat constructor. Defined.

Lemma gld_2024_01_03_priced :
  Forall (priced gld_2024_01_03) (rows gld_2024_01_03).
Proof. repeat constructor. Defined.

Lemma gld_has_price_columns (rs : list (cell * list cell)) :
  has_price_columns (gld_frame rs).
Proof. eexists. reflexivity. Defined.

Lemma first_run_writes_every_row_witness :
  disk (after update_csv_file first_run)
  = Some [map FTxt written_columns;
          map render (scaled_cells gld_2024_01_02
                        (gld_row day_2024_01_02 190.0 191.5 189.25 190.75))].
Proof.
  assert (Hr : rows gld_2024_01_02 <> []) by discriminate.
  exact (proj2 (first_run_writes_every_row first_run gld_2024_01_02
                  eq_refl eq_refl eq_refl eq_refl
                  (gld_has_price_columns _) gld_2024_01_02_priced Hr)).
Defined.

Lemma append_writes_every_new_row_witness :
  disk (after update_csv_file later_run)
  = Some (ledger_jan_02
            ++ map (fun r => map render (scaled_cells gld_2024_01_03 r))
                 (filter (kept_row ledger_jan_02) (rows gld_2024_01_03))).
Proof.
  assert (Hr : rows gld_2024_01_03 <> []) by discriminate.
  exact (proj2 (append_writes_every_new_row later_run ledger_jan_02
                  day_2024_01_02 day_2024_01_03 gld_2024_01_03
                  eq_refl eq_refl eq_refl eq_refl eq_refl eq_refl eq_refl
                  eq_refl eq_refl eq_refl
                  (gld_has_price_columns _) gld_2024_01_03_priced Hr)).
Defined.

Lemma created_file_is_rejected_witness :
  job (after job first_run) = (Raise ValueError, after job first_run).
Proof.
  exact (proj2 (proj2 (created_file_is_rejected first_run (after job first_run)
                         _ eq_refl eq_refl eq_refl eq_refl))).
Defined.

Lemma appended_rows_are_not_read_back_witness :
  ledger_dates (ledger_jan_02 ++ [line_jan_03]) = ledger_dates ledger_jan_02.
Proof.
  exact (proj1 (proj2 (proj2 (appended_rows_are_not_read_back later_run
                                ledger_jan_02 (ledger_jan_02 ++ [line_jan_03])
                                eq_refl eq_refl eq_refl)))).
Defined.

Lemma known_dates_are_not_written_witness :
  disk (after update_csv_file stale_run) = Some ledger_jan_02.
Proof.
  apply (known_dates_are_not_written stale_run ledger_jan_02 eq_refl eq_refl).
  intros start df r H Hr. injection H as <-.
  destruct Hr as [<-|[]]. exists day_2024_01_02. split; [reflexivity|].
  vm_compute. auto.
Defined.

Lemma push_needs_token_and_file_witness :
  gets (after push_to_github first_run) = gets first_run
  /\ puts (after push_to_github first_run) = puts first_run
  /\ github (after push_to_github first_run) = github first_run.
Proof.
  exact (push_needs_token_and_file first_run (or_intror eq_refl)).
Defined.

Lemma push_offline_witness :
  github (after push_to_github offline_run) = github offline_run.
Proof.
  exact (proj2 (proj2 (push_offline offline_run eq_refl))).
Defined.


Lemma job_without_token_witness :
  outcome job tokenless_run = Ok tt.
Proof.
  exact (proj1 (job_without_token tokenless_run eq_refl)).
Defined.


Lemma main_stops_at_exception_witness :
  outcome (main [mkPoll day_2024_01_03 true; mkPoll day_2024_01_04 true;
                 mkPoll day_2024_01_08 true]) first_run
  = Raise ValueError.
Proof.
  exact (f_equal fst
           (main_stops_at_exception [mkPoll day_2024_01_03 true]
              (mkPoll day_2024_01_04 true) [mkPoll day_2024_01_08 true]
              ValueError first_run _ eq_refl eq_refl eq_refl)).
Defined.

Lemma start_follows_last_date_witness :
  exists D',
    add_one_day day_2024_01_02 = Some D' /\ plain_day D' = true
    /\ (forall d, In d (ledger_dates ledger_jan_02) -> ts_lt d D')
    /\ (forall x, valid x = true -> ts_lt day_2024_01_02 x ->
                  x = D' \/ ts_lt D' x)
    /\ fetches (after update_csv_file later_run)
       = History "GLD" (strftime D') (strftime (today later_run))
           :: fetches later_run.
Proof.
  exact (start_follows_last_date later_run ledger_jan_02 day_2024_01_02
           eq_refl eq_refl eq_refl eq_refl eq_refl eq_refl eq_refl).
Defined.

End Instances.
